(** * The store of the association-management application

    A shallow embedding of [context/StoreContext.tsx]: the provider that
    holds the cache of members, transactions, budgets, messages and settings,
    in its two versions (the in-memory one with demo data, module [Mock], and
    the one backed by the remote store, module [Supabase]), and the
    properties of its entry points.

    - JavaScript numbers are IEEE doubles.  Nothing below depends on how they
      round: the development is parametric in a host ([JsHost]) that gives the
      number type, its addition and the host's conversions.
    - An awaited remote call is a node of an [Action]: the request that is
      issued, and what the code does with each possible reply.
    - A React state update is a [SetState] node holding the updater. *)

From Stdlib Require Import List String Ascii ZArith Bool Lia DecimalString.
Import ListNotations.
Local Open Scope string_scope.
Local Open Scope list_scope.

(* ================================================================== *)
(** * JavaScript values and the host *)

(** A value of type [any]: what a remote cell or a parsed JSON text holds. *)
#[local] Set Warnings "-register-all".
Inductive JsValue (num : Type) : Type :=
| VUndefined
| VNull
| VBool (b : bool)
| VNumber (n : num)
| VString (s : string)
| VArray (items : list (JsValue num))
| VObject (fields : list (string * JsValue num)).
#[local] Set Warnings "register-all".

Arguments VUndefined {num}.
Arguments VNull {num}.
Arguments VBool {num} b.
Arguments VNumber {num} n.
Arguments VString {num} s.
Arguments VArray {num} items.
Arguments VObject {num} fields.

(** What a [throw] carries. *)
Inductive Exn : Type :=
| TypeError      (* a property read on undefined *)
| SyntaxError    (* JSON.parse on a malformed text *)
| Failure (reason : string).  (* anything else, e.g. a rejected fetch *)

(** The outcome of evaluating an expression that may throw. *)
Inductive Completion (A : Type) : Type :=
| Normal (a : A)
| Throw (e : Exn).

Arguments Normal {A} a.
Arguments Throw {A} e.

Definition bindC {A B} (c : Completion A) (f : A -> Completion B) : Completion B :=
  match c with
  | Normal a => f a
  | Throw e => Throw e
  end.

(** [Array.prototype.map] with a callback that may throw: the first throw
    aborts the whole map. *)
Fixpoint mapC {A B} (f : A -> Completion B) (l : list A) : Completion (list B) :=
  match l with
  | [] => Normal []
  | a :: l' => bindC (f a) (fun b => bindC (mapC f l') (fun bs => Normal (b :: bs)))
  end.

(** The JavaScript host: numbers and the built-ins the store calls. *)
Class JsHost : Type := {
  num : Type;                                     (* the type number *)
  add : num -> num -> num;                        (* a + b *)
  sub : num -> num -> num;                        (* a - b *)
  zero : num;                                     (* the literal 0 *)
  truthy_num : num -> bool;                       (* ToBoolean: false on 0, -0, NaN *)
  parseFloat : JsValue num -> num;                (* parseFloat(x) *)
  JSON_parse : string -> option (JsValue num);    (* None: throws SyntaxError *)
  JSON_stringify : JsValue num -> option string   (* None: undefined *)
}.

Section Values.
Context `{JsHost}.

(** ToBoolean, as the tests [x ? a : b] and [if (x)] apply it. *)
Definition truthy (v : JsValue num) : bool :=
  match v with
  | VUndefined | VNull => false
  | VBool b => b
  | VNumber n => truthy_num n
  | VString s => negb (s =? "")
  | VArray _ | VObject _ => true
  end.

(** [typeof v === 'string'] *)
Definition is_string (v : JsValue num) : bool :=
  match v with
  | VString _ => true
  | _ => false
  end.

(** ToBoolean on an optional string ([user.memberId], [s.logo_url]). *)
Definition truthy_str (o : option string) : bool :=
  match o with
  | Some s => negb (s =? "")
  | None => false
  end.
End Values.

(* ================================================================== *)
(** * Asynchronous actions over a store *)

Section Actions.
Variable Store : Type.
Variable Query : Type -> Type.   (* the remote calls, indexed by reply type *)

(** How an awaited promise settles. *)
Inductive Settled (R : Type) : Type :=
| Fulfilled (r : R)
| Rejected (e : Exn).
Arguments Fulfilled {R} r.
Arguments Rejected {R} e.

(** The body of an entry point.  [Return]: the function returns (its
    promise fulfils); [Reject]: an exception leaves it (its promise
    rejects); [SetState u k]: a state setter is called with the updater
    [u], then [k] runs; [Await q k]: the call [q] is issued and awaited. *)
Inductive Action (A : Type) : Type :=
| Return (a : A)
| Reject (e : Exn)
| SetState (u : Store -> Completion Store) (k : Action A)
| Await (R : Type) (q : Query R) (k : Settled R -> Action A).
Arguments Return {A} a.
Arguments Reject {A} e.
Arguments SetState {A} u k.
Arguments Await {A R} q k.

(** How a run ends: returned, rejected, or the updater threw when React
    applied it.  React lets the error of an updater resurface in render,
    and the provider, which no error boundary protects, is then unmounted:
    after [UpdaterThrew] there is no cache left to speak of. *)
Inductive Outcome (A : Type) : Type :=
| Returned (a : A)
| Thrown (e : Exn)
| UpdaterThrew (e : Exn).
Arguments Returned {A} a.
Arguments Thrown {A} e.
Arguments UpdaterThrew {A} e.

Definition Call : Type := { R : Type & Query R }.

Record Run (A : Type) : Type := mkRun {
  issued : list Call;      (* the remote calls, in the order issued *)
  final : Store;           (* the store once the action is over; after
                              UpdaterThrew, the store the updater was given *)
  outcome : Outcome A
}.
Arguments mkRun {A} issued final outcome.
Arguments issued {A} r.
Arguments final {A} r.
Arguments outcome {A} r.

Definition Remote : Type := forall R : Type, Query R -> Settled R.

(** Runs an action alone, from store [s], against a remote that answers
    every call by [remote].  A run that ends on [UpdaterThrew] stops at the
    updater that threw: its [final] is the store that updater was given, not
    a cache the provider still shows. *)
Fixpoint run {A} (remote : Remote) (a : Action A) (s : Store) : Run A :=
  match a with
  | Return x => mkRun [] s (Returned x)
  | Reject e => mkRun [] s (Thrown e)
  | SetState u k =>
      match u s with
      | Normal s' => run remote k s'
      | Throw e => mkRun [] s (UpdaterThrew e)
      end
  | Await q k =>
      let r := run remote (k (remote _ q)) s in
      mkRun (existT _ _ q :: issued r) (final r) (outcome r)
  end.

(** An entry point is a closure over the store of the render that created
    it; called in that same render, it runs from that store. *)
Definition call {A} (remote : Remote) (entry : Store -> Action A) (s : Store) : Run A :=
  run remote (entry s) s.
End Actions.

Arguments Return {Store Query A} a.
Arguments Reject {Store Query A} e.
Arguments SetState {Store Query A} u k.
Arguments Await {Store Query A R} q k.
Arguments Fulfilled {R} r.
Arguments Rejected {R} e.
Arguments Returned {A} a.
Arguments Thrown {A} e.
Arguments UpdaterThrew {A} e.
Arguments mkRun {Store Query A} issued final outcome.
Arguments issued {Store Query A} r.
Arguments final {Store Query A} r.
Arguments outcome {Store Query A} r.
Arguments run {Store Query A} remote a s.
Arguments call {Store Query A} remote entry s.

(* ================================================================== *)
(** * The entities ([../types]) *)

(** Modelled from the spec: the enumerations are declared in [../types],
    which is not among the sources.  The spec gives the transaction types
    INCOME and EXPENSE, the roles TRESORIER, PRESIDENT and MEMBRE and the two
    genders (the code names them [Gender.MALE] and [Gender.FEMALE]); the
    status literals are in the code itself. *)
Inductive TransactionType : Type := INCOME | EXPENSE.
Inductive UserRole : Type := TRESORIER | PRESIDENT | MEMBRE.
Inductive Gender : Type := MALE | FEMALE.
Inductive Status : Type := PENDING | APPROVED | REJECTED.

(** [===] on the enumerations. *)
Definition TransactionType_eqb (a b : TransactionType) : bool :=
  match a, b with
  | INCOME, INCOME | EXPENSE, EXPENSE => true
  | _, _ => false
  end.

Definition UserRole_eqb (a b : UserRole) : bool :=
  match a, b with
  | TRESORIER, TRESORIER | PRESIDENT, PRESIDENT | MEMBRE, MEMBRE => true
  | _, _ => false
  end.

Definition Gender_eqb (a b : Gender) : bool :=
  match a, b with
  | MALE, MALE | FEMALE, FEMALE => true
  | _, _ => false
  end.

Definition Status_eqb (a b : Status) : bool :=
  match a, b with
  | PENDING, PENDING | APPROVED, APPROVED | REJECTED, REJECTED => true
  | _, _ => false
  end.

(** [a !== b] on the results of JSON.stringify. *)
Definition differ (a b : option string) : bool :=
  match a, b with
  | Some x, Some y => negb (x =? y)
  | None, None => false
  | _, _ => true
  end.

(** The session principal.  [None] in an optional field stands for the
    absent value, [undefined] or [null]. *)
Record User : Type := mkUser {
  u_email : string;
  u_name : string;
  u_role : UserRole;
  u_memberId : option string
}.

Record AppSettings : Type := mkAppSettings {
  associationName : string;
  currency : string;
  logoUrl : string
}.

Section Entities.
Context `{JsHost}.

Record Transaction : Type := mkTransaction {
  tx_id : string;
  tx_type : TransactionType;
  tx_category : string;
  tx_amount : num;
  tx_date : string;
  tx_description : string;
  tx_performedBy : string;
  tx_matricule : string;
  tx_function : string;
  tx_receiptNumber : option string;
  tx_status : Status;
  tx_responsible : string;
  tx_signature : string;
  tx_proofUrl : option string
}.

(** [Omit<Transaction, 'id' | 'status' | 'signature'>] *)
Record TransactionInput : Type := mkTransactionInput {
  in_type : TransactionType;
  in_category : string;
  in_amount : num;
  in_date : string;
  in_description : string;
  in_performedBy : string;
  in_matricule : string;
  in_function : string;
  in_receiptNumber : option string;
  in_responsible : string;
  in_proofUrl : option string
}.

Record Member : Type := mkMember {
  m_id : string;
  m_dossierNumber : string;
  m_ine : string;
  m_uniqueId : string;
  m_firstName : string;
  m_lastName : string;
  m_dob : string;
  m_sector : string;
  m_level : string;
  m_gender : Gender;
  m_balance : num
}.

(** [Omit<Member, 'id' | 'uniqueId'>] *)
Record MemberInput : Type := mkMemberInput {
  mi_dossierNumber : string;
  mi_ine : string;
  mi_firstName : string;
  mi_lastName : string;
  mi_dob : string;
  mi_sector : string;
  mi_level : string;
  mi_gender : Gender;
  mi_balance : num
}.

Record Budget : Type := mkBudget {
  b_id : string;
  b_category : string;
  b_allocatedAmount : num;
  b_spentAmount : num;
  b_year : num
}.

Record CommunityMessage : Type := mkCommunityMessage {
  msg_id : string;
  msg_userId : string;
  msg_userName : string;
  msg_userRole : UserRole;
  msg_memberInfo : JsValue num;
  msg_content : string;
  msg_timestamp : string
}.

(** [{ ...t, status: st }] *)
Definition with_status (st : Status) (t : Transaction) : Transaction :=
  {| tx_id := tx_id t; tx_type := tx_type t; tx_category := tx_category t;
     tx_amount := tx_amount t; tx_date := tx_date t;
     tx_description := tx_description t; tx_performedBy := tx_performedBy t;
     tx_matricule := tx_matricule t; tx_function := tx_function t;
     tx_receiptNumber := tx_receiptNumber t; tx_status := st;
     tx_responsible := tx_responsible t; tx_signature := tx_signature t;
     tx_proofUrl := tx_proofUrl t |}.

(** [{ ...b, spentAmount: spent }] *)
Definition with_spentAmount (spent : num) (b : Budget) : Budget :=
  {| b_id := b_id b; b_category := b_category b;
     b_allocatedAmount := b_allocatedAmount b; b_spentAmount := spent;
     b_year := b_year b |}.

(** [{ ...b, allocatedAmount: amount }] *)
Definition with_allocatedAmount (amount : num) (b : Budget) : Budget :=
  {| b_id := b_id b; b_category := b_category b;
     b_allocatedAmount := amount; b_spentAmount := b_spentAmount b;
     b_year := b_year b |}.

(** [{ sector: m.sector, level: m.level }] *)
Definition memberInfo_of (m : Member) : JsValue num :=
  VObject [("sector", VString (m_sector m)); ("level", VString (m_level m))].

(** [let memberInfo = undefined;
     if (user.memberId) {
       const m = members.find(mem => mem.id === user.memberId);
       if (m) memberInfo = { sector: m.sector, level: m.level };
     }] *)
Definition memberInfo (user : User) (members : list Member) : JsValue num :=
  match u_memberId user with
  | Some memberId =>
      if negb (memberId =? "") then
        match find (fun mem => m_id mem =? memberId) members with
        | Some m => memberInfo_of m
        | None => VUndefined
        end
      else VUndefined
  | None => VUndefined
  end.

(** A budget as the object JSON.stringify is given, keys in the order the
    code creates them (a spread keeps the position of a key it overwrites). *)
Definition Budget_value (b : Budget) : JsValue num :=
  VObject [("id", VString (b_id b)); ("category", VString (b_category b));
           ("allocatedAmount", VNumber (b_allocatedAmount b));
           ("spentAmount", VNumber (b_spentAmount b));
           ("year", VNumber (b_year b))].

(** ** The budget recomputation (the effect on [transactions]) *)

(** [transactions.filter(t => t.type === EXPENSE && t.category === b.category
                              && t.status === 'APPROVED')
                .reduce((acc, t) => acc + t.amount, 0)] *)
Definition spent (transactions : list Transaction) (b : Budget) : num :=
  fold_left (fun acc t => add acc (tx_amount t))
    (filter (fun t => TransactionType_eqb (tx_type t) EXPENSE
                      && (tx_category t =? b_category b)
                      && Status_eqb (tx_status t) APPROVED)
            transactions)
    zero.

(** [const newBudgets = budgets.map(b => ({ ...b, spentAmount: spent }))]:
    the function the spec calls recompute. *)
Definition newBudgets (transactions : list Transaction) (budgets : list Budget)
  : list Budget :=
  map (fun b => with_spentAmount (spent transactions b) b) budgets.

(** [if (JSON.stringify(newBudgets) !== JSON.stringify(budgets))
       setBudgets(newBudgets)]: the budgets the effect leaves. *)
Definition recomputed (transactions : list Transaction) (budgets : list Budget)
  : list Budget :=
  let nb := newBudgets transactions budgets in
  if differ (JSON_stringify (VArray (map Budget_value nb)))
            (JSON_stringify (VArray (map Budget_value budgets)))
  then nb else budgets.

(** ** The derived statistics *)

Definition totalIncome (transactions : list Transaction) : num :=
  fold_left (fun acc t => add acc (tx_amount t))
    (filter (fun t => TransactionType_eqb (tx_type t) INCOME
                      && Status_eqb (tx_status t) APPROVED) transactions)
    zero.

Definition totalExpense (transactions : list Transaction) : num :=
  fold_left (fun acc t => add acc (tx_amount t))
    (filter (fun t => TransactionType_eqb (tx_type t) EXPENSE
                      && Status_eqb (tx_status t) APPROVED) transactions)
    zero.

Definition balance (transactions : list Transaction) : num :=
  sub (totalIncome transactions) (totalExpense transactions).

Definition pendingCount (transactions : list Transaction) : nat :=
  List.length (filter (fun t => Status_eqb (tx_status t) PENDING) transactions).

(** ** The sum of the claim, written as one pass over the transactions *)

(** The sum of [t.amount] over the transactions [t], in their order, with
    [t.type == EXPENSE], [t.status == 'APPROVED'] and
    [t.category == category], starting from [acc]. *)
Fixpoint approved_expense_sum (category : string) (acc : num)
         (transactions : list Transaction) : num :=
  match transactions with
  | [] => acc
  | t :: rest =>
      match tx_type t, tx_status t with
      | EXPENSE, APPROVED =>
          if tx_category t =? category
          then approved_expense_sum category (add acc (tx_amount t)) rest
          else approved_expense_sum category acc rest
      | _, _ => approved_expense_sum category acc rest
      end
  end.
End Entities.

(** [`${n}`] for an integer [n] ([Date.now()], an array index). *)
Definition show_int (z : Z) : string := NilEmpty.string_of_int (Z.to_int z).
Definition show_index (i : nat) : string := NilEmpty.string_of_uint (Nat.to_uint i).

(** [xs.map((x, index) => f x index)] *)
Fixpoint map_indexed {A B} (f : A -> nat -> B) (index : nat) (xs : list A) : list B :=
  match xs with
  | [] => []
  | x :: xs' => f x index :: map_indexed f (S index) xs'
  end.

(** The user's prefix of a member's unique identifier. *)
Definition uniqueId_prefix (g : Gender) : string :=
  if Gender_eqb g MALE then "A" else "B".

(* ================================================================== *)
(** * The in-memory provider *)

Module Mock.
Section Provider.
Context `{JsHost}.

(** [ADMIN_EMAIL] and [ADMIN_PASS] come from [../constants], which is not
    among the sources. *)
Variables ADMIN_EMAIL ADMIN_PASS : string.

Record Store : Type := mkStore {
  user : option User;
  transactions : list Transaction;
  members : list Member;
  budgets : list Budget;
  messages : list CommunityMessage;
  settings : AppSettings
}.

(** This provider calls no remote store. *)
Inductive Query : Type -> Type := .

Definition Act (A : Type) : Type := Action Store Query A.

(** The state setters, applied to an updater. *)
Definition setUser (f : option User -> option User) (s : Store) : Completion Store :=
  Normal (mkStore (f (user s)) (transactions s) (members s) (budgets s)
                  (messages s) (settings s)).
Definition setTransactions (f : list Transaction -> list Transaction) (s : Store)
  : Completion Store :=
  Normal (mkStore (user s) (f (transactions s)) (members s) (budgets s)
                  (messages s) (settings s)).
Definition setMembers (f : list Member -> list Member) (s : Store) : Completion Store :=
  Normal (mkStore (user s) (transactions s) (f (members s)) (budgets s)
                  (messages s) (settings s)).
Definition setBudgets (f : list Budget -> list Budget) (s : Store) : Completion Store :=
  Normal (mkStore (user s) (transactions s) (members s) (f (budgets s))
                  (messages s) (settings s)).
Definition setMessages (f : list CommunityMessage -> list CommunityMessage) (s : Store)
  : Completion Store :=
  Normal (mkStore (user s) (transactions s) (members s) (budgets s)
                  (f (messages s)) (settings s)).
Definition setSettings (f : AppSettings -> AppSettings) (s : Store) : Completion Store :=
  Normal (mkStore (user s) (transactions s) (members s) (budgets s)
                  (messages s) (f (settings s))).

(** The effect that follows a change of [transactions]. *)
Definition effect (s : Store) : Store :=
  mkStore (user s) (transactions s) (members s)
          (recomputed (transactions s) (budgets s)) (messages s) (settings s).

Definition login (email pass : string) (_ : Store) : Act bool :=
  if (email =? ADMIN_EMAIL) && (pass =? ADMIN_PASS) then
    SetState (setUser (fun _ => Some
      {| u_email := email; u_name := "Administrateur (Djahfar)";
         u_role := TRESORIER; u_memberId := None |}))
      (Return true)
  else if email =? "president@asso.com" then
    SetState (setUser (fun _ => Some
      {| u_email := email; u_name := "Président Association";
         u_role := PRESIDENT; u_memberId := None |}))
      (Return true)
  else if email =? "membre@asso.com" then
    SetState (setUser (fun _ => Some
      {| u_email := email; u_name := "Jean Dupont";
         u_role := MEMBRE; u_memberId := Some "1" |}))
      (Return true)
  else Return false.

Definition logout (_ : Store) : Act unit :=
  SetState (setUser (fun _ => None)) (Return tt).

(** [random_id] is what [Math.random().toString(36).substr(2, 9)] gave,
    [now_sig] and [now_rec] the two readings of [Date.now()]. *)
Definition newTx (random_id : string) (now_sig now_rec : Z)
           (t : TransactionInput) (s : Store) : Transaction :=
  {| tx_type := in_type t; tx_category := in_category t;
     tx_amount := in_amount t; tx_date := in_date t;
     tx_description := in_description t; tx_performedBy := in_performedBy t;
     tx_matricule := in_matricule t; tx_function := in_function t;
     tx_responsible := in_responsible t; tx_proofUrl := in_proofUrl t;
     tx_id := random_id;
     tx_status := match user s with
                  | Some u => if UserRole_eqb (u_role u) TRESORIER
                              then APPROVED else PENDING
                  | None => PENDING
                  end;
     tx_signature := ("SIG-" ++ show_int now_sig)%string;
     tx_receiptNumber := if TransactionType_eqb (in_type t) INCOME
                         then Some ("REC-" ++ show_int now_rec)%string else None |}.

Definition addTransaction (random_id : string) (now_sig now_rec : Z)
           (t : TransactionInput) (s : Store) : Act unit :=
  let newTx := newTx random_id now_sig now_rec t s in
  SetState (setTransactions (fun prev => newTx :: prev)) (Return tt).

Definition approveTransaction (id : string) (_ : Store) : Act unit :=
  SetState (setTransactions (fun prev =>
    map (fun t => if tx_id t =? id then with_status APPROVED t else t) prev))
    (Return tt).

Definition rejectTransaction (id : string) (_ : Store) : Act unit :=
  SetState (setTransactions (fun prev =>
    map (fun t => if tx_id t =? id then with_status REJECTED t else t) prev))
    (Return tt).

Definition deleteTransaction (id : string) (_ : Store) : Act unit :=
  SetState (setTransactions (fun prev =>
    filter (fun t => negb (tx_id t =? id)) prev)) (Return tt).

(** [randomSuffix] is what
    [Math.floor(10000000000 + Math.random() * 90000000000).toString()] gave. *)
Definition addMember (randomSuffix random_id : string) (m : MemberInput)
           (_ : Store) : Act unit :=
  let uniqueId := (uniqueId_prefix (mi_gender m) ++ randomSuffix)%string in
  let newMember :=
    {| m_dossierNumber := mi_dossierNumber m; m_ine := mi_ine m;
       m_firstName := mi_firstName m; m_lastName := mi_lastName m;
       m_dob := mi_dob m; m_sector := mi_sector m; m_level := mi_level m;
       m_gender := mi_gender m; m_balance := mi_balance m;
       m_id := random_id; m_uniqueId := uniqueId |} in
  SetState (setMembers (fun prev => prev ++ [newMember])) (Return tt).

Definition deleteMember (id : string) (_ : Store) : Act unit :=
  SetState (setMembers (fun prev => filter (fun m => negb (m_id m =? id)) prev))
    (Return tt).

Definition updateBudget (id : string) (amount : num) (_ : Store) : Act unit :=
  SetState (setBudgets (fun prev =>
    map (fun b => if b_id b =? id then with_allocatedAmount amount b else b) prev))
    (Return tt).

Definition updateSettings (s' : AppSettings) (_ : Store) : Act unit :=
  SetState (setSettings (fun _ => s')) (Return tt).

(** [now_iso] is what [new Date().toISOString()] gave. *)
Definition addMessage (random_id now_iso : string) (content : string) (s : Store)
  : Act unit :=
  match user s with
  | None => Return tt
  | Some user =>
      let memberInfo := memberInfo user (members s) in
      let newMsg :=
        {| msg_id := random_id; msg_userId := u_email user;
           msg_userName := u_name user; msg_userRole := u_role user;
           msg_memberInfo := memberInfo; msg_content := content;
           msg_timestamp := now_iso |} in
      SetState (setMessages (fun prev => prev ++ [newMsg])) (Return tt)
  end.

Definition deleteMessage (id : string) (_ : Store) : Act unit :=
  SetState (setMessages (fun prev => filter (fun m => negb (msg_id m =? id)) prev))
    (Return tt).

(** No call goes out: any remote will do. *)
Definition no_remote : Remote Query :=
  fun R (q : Query R) => match q with end.
End Provider.
End Mock.

(* ================================================================== *)
(** * The provider backed by the remote store *)

Module Supabase.
Section Provider.
Context `{JsHost}.

(** [Object.values(ExpenseCategory)]: the enumeration is declared in
    [../types], which is not among the sources. *)
Variable ExpenseCategory_values : list string.

(** ** Remote rows (snake_case) *)

Record UserRow : Type := mkUserRow {
  ur_email : string;
  ur_password : string;
  ur_name : string;
  ur_role : UserRole;
  ur_member_id : option string
}.

Record MemberRow : Type := mkMemberRow {
  mr_id : string;
  mr_unique_id : string;
  mr_first_name : string;
  mr_last_name : string;
  mr_dob : string;
  mr_sector : string;
  mr_level : string;
  mr_gender : Gender;
  mr_dossier_number : string;
  mr_ine : string;
  mr_balance : JsValue num
}.

Record TransactionRow : Type := mkTransactionRow {
  tr_id : string;
  tr_type : TransactionType;
  tr_category : string;
  tr_amount : JsValue num;
  tr_date : string;
  tr_description : string;
  tr_performed_by : string;
  tr_matricule : string;
  tr_function : string;
  tr_receipt_number : option string;
  tr_status : Status;
  tr_responsible : string;
  tr_signature : string;
  tr_proof_url : option string
}.

Record BudgetRow : Type := mkBudgetRow {
  br_id : string;
  br_category : string;
  br_allocated_amount : JsValue num;
  br_year : num
}.

Record MessageRow : Type := mkMessageRow {
  msr_id : string;
  msr_user_id : string;
  msr_user_name : string;
  msr_user_role : UserRole;
  msr_content : string;
  msr_created_at : string;
  member_info_json : JsValue num
}.

Record SettingsRow : Type := mkSettingsRow {
  sr_association_name : string;
  sr_currency : string;
  sr_logo_url : option string
}.

(** ** What the entry points send *)

(** [newTx] of [addTransaction] *)
Record TransactionInsert : Type := mkTransactionInsert {
  ti_type : TransactionType;
  ti_category : string;
  ti_amount : num;
  ti_date : string;
  ti_description : string;
  ti_performed_by : string;
  ti_matricule : string;
  ti_function : string;
  ti_receipt_number : option string;
  ti_status : Status;
  ti_responsible : string;
  ti_signature : string;
  ti_proof_url : option string
}.

(** [newMember] of [addMember] *)
Record MemberInsert : Type := mkMemberInsert {
  ni_unique_id : string;
  ni_first_name : string;
  ni_last_name : string;
  ni_dob : string;
  ni_sector : string;
  ni_level : string;
  ni_gender : Gender;
  ni_dossier_number : string;
  ni_ine : string;
  ni_balance : num
}.

(** [budgetData] of [updateBudget] *)
Record BudgetInsert : Type := mkBudgetInsert {
  bi_id : option string;
  bi_category : string;
  bi_allocated_amount : num;
  bi_year : num
}.

(** [newMsg] of [addMessage] *)
Record MessageInsert : Type := mkMessageInsert {
  gi_user_id : string;
  gi_user_name : string;
  gi_user_role : UserRole;
  gi_member_info_json : JsValue num;
  gi_content : string
}.

Record SettingsUpdate : Type := mkSettingsUpdate {
  su_association_name : string;
  su_currency : string;
  su_logo_url : string
}.

(** The [{ data, error }] a call resolves to; [None] is [null]. *)
Record Response (D : Type) : Type := mkResponse {
  data : option D;
  error : option string
}.
Arguments mkResponse {D} data error.
Arguments data {D} r.
Arguments error {D} r.

(** The calls on [supabase], each with the type of its reply. *)
Inductive Query : Type -> Type :=
(* from('users').select('*').eq('email', e).eq('password', p).single() *)
| users_single (e p : string) : Query (Response UserRow)
(* from('members').select('*') *)
| members_select : Query (Response (list MemberRow))
(* from('transactions').select('*').order('date', { ascending: false }) *)
| transactions_select : Query (Response (list TransactionRow))
(* from('budgets').select('*') *)
| budgets_select : Query (Response (list BudgetRow))
(* from('messages').select('*').order('created_at', { ascending: true }) *)
| messages_select : Query (Response (list MessageRow))
(* from('settings').select('*').limit(1) *)
| settings_select : Query (Response (list SettingsRow))
(* from('transactions').insert([newTx]).select() *)
| transactions_insert (newTx : TransactionInsert) : Query (Response (list TransactionRow))
(* from('transactions').update({ status }).eq('id', id) *)
| transactions_update (status : Status) (id : string) : Query (Response unit)
(* from('transactions').delete().eq('id', id) *)
| transactions_delete (id : string) : Query (Response unit)
(* from('members').insert([newMember]).select() *)
| members_insert (newMember : MemberInsert) : Query (Response (list MemberRow))
(* from('members').delete().eq('id', id) *)
| members_delete (id : string) : Query (Response unit)
(* from('budgets').insert([budgetData]).select() *)
| budgets_insert (budgetData : BudgetInsert) : Query (Response (list BudgetRow))
(* from('budgets').update({ allocated_amount }).eq('id', id) *)
| budgets_update (allocated_amount : num) (id : string) : Query (Response unit)
(* from('settings').update({ ... }).eq('id', 1) *)
| settings_update (s : SettingsUpdate) : Query (Response unit)
(* from('messages').insert([newMsg]) *)
| messages_insert (newMsg : MessageInsert) : Query (Response unit)
(* from('messages').delete().eq('id', id) *)
| messages_delete (id : string) : Query (Response unit).

(** ** The cache *)

Record Store : Type := mkStore {
  user : option User;
  transactions : list Transaction;
  members : list Member;
  budgets : list Budget;
  messages : list CommunityMessage;
  settings : AppSettings;
  isLoading : bool
}.

Definition Act (A : Type) : Type := Action Store Query A.

Definition setUser (f : option User -> option User) (s : Store) : Completion Store :=
  Normal (mkStore (f (user s)) (transactions s) (members s) (budgets s)
                  (messages s) (settings s) (isLoading s)).
(** The updaters of [setTransactions], [setMembers] and [setBudgets] may
    throw: [addTransaction], [addMember] and [updateBudget] map the first
    row of the reply inside them. *)
Definition setTransactions (f : list Transaction -> Completion (list Transaction))
           (s : Store) : Completion Store :=
  bindC (f (transactions s)) (fun ts =>
  Normal (mkStore (user s) ts (members s) (budgets s)
                  (messages s) (settings s) (isLoading s))).
Definition setMembers (f : list Member -> Completion (list Member)) (s : Store)
  : Completion Store :=
  bindC (f (members s)) (fun ms =>
  Normal (mkStore (user s) (transactions s) ms (budgets s)
                  (messages s) (settings s) (isLoading s))).
Definition setBudgets (f : list Budget -> Completion (list Budget)) (s : Store)
  : Completion Store :=
  bindC (f (budgets s)) (fun bs =>
  Normal (mkStore (user s) (transactions s) (members s) bs
                  (messages s) (settings s) (isLoading s))).
Definition setMessages (f : list CommunityMessage -> list CommunityMessage) (s : Store)
  : Completion Store :=
  Normal (mkStore (user s) (transactions s) (members s) (budgets s)
                  (f (messages s)) (settings s) (isLoading s)).
Definition setSettings (f : AppSettings -> AppSettings) (s : Store) : Completion Store :=
  Normal (mkStore (user s) (transactions s) (members s) (budgets s)
                  (messages s) (f (settings s)) (isLoading s)).
Definition setIsLoading (b : bool) (s : Store) : Completion Store :=
  Normal (mkStore (user s) (transactions s) (members s) (budgets s)
                  (messages s) (settings s) b).

(** ** The mappers, snake_case to camelCase *)

Definition mapMember (m : MemberRow) : Member :=
  {| m_id := mr_id m; m_uniqueId := mr_unique_id m; m_firstName := mr_first_name m;
     m_lastName := mr_last_name m; m_dob := mr_dob m; m_sector := mr_sector m;
     m_level := mr_level m; m_gender := mr_gender m;
     m_dossierNumber := mr_dossier_number m; m_ine := mr_ine m;
     m_balance := parseFloat (mr_balance m) |}.

Definition mapTransaction (t : TransactionRow) : Transaction :=
  {| tx_id := tr_id t; tx_type := tr_type t; tx_category := tr_category t;
     tx_amount := parseFloat (tr_amount t); tx_date := tr_date t;
     tx_description := tr_description t; tx_performedBy := tr_performed_by t;
     tx_matricule := tr_matricule t; tx_function := tr_function t;
     tx_receiptNumber := tr_receipt_number t; tx_status := tr_status t;
     tx_responsible := tr_responsible t; tx_signature := tr_signature t;
     tx_proofUrl := tr_proof_url t |}.

Definition mapBudget (b : BudgetRow) : Budget :=
  {| b_id := br_id b; b_category := br_category b;
     b_allocatedAmount := parseFloat (br_allocated_amount b);
     b_spentAmount := zero; b_year := br_year b |}.

(** [m.member_info_json
       ? (typeof m.member_info_json === 'string'
            ? JSON.parse(m.member_info_json) : m.member_info_json)
       : undefined]; a throw of JSON.parse leaves [mapMessage]. *)
Definition mapMessage (m : MessageRow) : Completion CommunityMessage :=
  bindC
    (if truthy (member_info_json m) then
       match member_info_json m with
       | VString text =>
           match JSON_parse text with
           | Some v => Normal v
           | None => Throw SyntaxError
           end
       | v => Normal v
       end
     else Normal VUndefined)
    (fun memberInfo =>
       Normal {| msg_id := msr_id m; msg_userId := msr_user_id m;
                 msg_userName := msr_user_name m; msg_userRole := msr_user_role m;
                 msg_content := msr_content m; msg_timestamp := msr_created_at m;
                 msg_memberInfo := memberInfo |}).

(** [mapX(data[0])]: on an empty array the mapper reads a property of
    undefined. *)
Definition map_first {R E} (mapX : R -> E) (data : list R) : Completion E :=
  match data with
  | row :: _ => Normal (mapX row)
  | [] => Throw TypeError
  end.

(** [s.logo_url || ''] *)
Definition or_empty (o : option string) : string :=
  match o with
  | Some x => if truthy_str o then x else ""
  | None => ""
  end.

(** ** Loading and the change stream *)

(** The default budgets, one per expense category, with placeholder
    identifiers; [year] is [new Date().getFullYear()]. *)
Definition defaultBudgets (year : num) : list Budget :=
  map_indexed (fun cat index =>
    {| b_id := ("b-" ++ show_index index)%string; b_category := cat;
       b_allocatedAmount := zero; b_spentAmount := zero; b_year := year |})
    0 ExpenseCategory_values.

(** [let dbBudgets = resB.data ? resB.data.map(mapBudget) : [];
     if (dbBudgets.length === 0) dbBudgets = (the default budgets)] *)
Definition dbBudgets (year : num) (resB : Response (list BudgetRow)) : list Budget :=
  let dbBudgets := match data resB with
                   | Some rows => map mapBudget rows
                   | None => []
                   end in
  match dbBudgets with
  | [] => defaultBudgets year
  | _ => dbBudgets
  end.

(** The body of the [try] of [fetchData], once the five replies are in. *)
Definition fetched (year : num)
           (resM : Response (list MemberRow))
           (resT : Response (list TransactionRow))
           (resB : Response (list BudgetRow))
           (resMsg : Response (list MessageRow))
           (resS : Response (list SettingsRow))
           (finally : Act unit) : Act unit :=
  let step1 k := match data resM with
                 | Some rows => SetState (setMembers (fun _ => Normal (map mapMember rows))) k
                 | None => k
                 end in
  let step2 k := match data resT with
                 | Some rows =>
                     SetState (setTransactions (fun _ =>
                       Normal (map mapTransaction rows))) k
                 | None => k
                 end in
  let step3 k := match data resMsg with
                 | Some rows =>
                     match mapC mapMessage rows with
                     | Normal msgs => SetState (setMessages (fun _ => msgs)) k
                     | Throw _ => finally   (* caught and logged *)
                     end
                 | None => k
                 end in
  let step4 k := match data resS with
                 | Some (s :: _) =>
                     SetState (setSettings (fun _ =>
                       {| associationName := sr_association_name s;
                          currency := sr_currency s;
                          logoUrl := or_empty (sr_logo_url s) |})) k
                 | _ => k
                 end in
  step1 (step2 (step3 (step4
    (SetState (setBudgets (fun _ => Normal (dbBudgets year resB))) finally)))).

(** The five selects go out together ([Promise.all]); a rejection of any
    of them is caught and logged. *)
Definition fetchData (year : num) (_ : Store) : Act unit :=
  let finally := SetState (setIsLoading false) (Return tt) in
  SetState (setIsLoading true)
    (Await members_select (fun rM =>
     Await transactions_select (fun rT =>
     Await budgets_select (fun rB =>
     Await messages_select (fun rMsg =>
     Await settings_select (fun rS =>
       match rM, rT, rB, rMsg, rS with
       | Fulfilled resM, Fulfilled resT, Fulfilled resB, Fulfilled resMsg,
         Fulfilled resS => fetched year resM resT resB resMsg resS finally
       | _, _, _, _, _ => finally
       end)))))).

(** The handler of an INSERT event on [messages]. *)
Definition onInsert (payload_new : MessageRow) (_ : Store) : Act unit :=
  match mapMessage payload_new with
  | Normal newMsg => SetState (setMessages (fun prev => prev ++ [newMsg])) (Return tt)
  | Throw e => Reject e
  end.

(** The handler of a DELETE event on [messages]. *)
Definition onDelete (payload_old_id : string) (_ : Store) : Act unit :=
  SetState (setMessages (fun prev =>
    filter (fun m => negb (msg_id m =? payload_old_id)) prev)) (Return tt).

(** The effect that follows a change of [transactions]. *)
Definition effect (s : Store) : Store :=
  mkStore (user s) (transactions s) (members s)
          (recomputed (transactions s) (budgets s)) (messages s) (settings s)
          (isLoading s).

(** ** The actions *)

Definition login (email pass : string) (_ : Store) : Act bool :=
  Await (users_single email pass) (fun r =>
    match r with
    | Fulfilled resp =>
        match data resp with
        | Some data =>
            SetState (setUser (fun _ => Some
              {| u_email := ur_email data; u_name := ur_name data;
                 u_role := ur_role data; u_memberId := ur_member_id data |}))
              (Return true)
        | None => Return false
        end
    | Rejected _ => Return false   (* catch (e) { console.error(e) } *)
    end).

Definition logout (_ : Store) : Act unit :=
  SetState (setUser (fun _ => None)) (Return tt).

(** [now_rec] and [now_sig] are the two readings of [Date.now()]. *)
Definition newTx (now_rec now_sig : Z) (t : TransactionInput) (s : Store)
  : TransactionInsert :=
  {| ti_type := in_type t; ti_category := in_category t;
     ti_amount := in_amount t; ti_date := in_date t;
     ti_description := in_description t;
     ti_performed_by := in_performedBy t; ti_matricule := in_matricule t;
     ti_function := in_function t;
     ti_receipt_number := if TransactionType_eqb (in_type t) INCOME
                          then Some ("REC-" ++ show_int now_rec)%string else None;
     ti_status := match user s with
                  | Some u => if UserRole_eqb (u_role u) TRESORIER
                              then APPROVED else PENDING
                  | None => PENDING
                  end;
     ti_responsible := in_responsible t;
     ti_signature := ("SIG-" ++ show_int now_sig)%string;
     ti_proof_url := in_proofUrl t |}.

Definition addTransaction (now_rec now_sig : Z) (t : TransactionInput) (s : Store)
  : Act unit :=
  let newTx := newTx now_rec now_sig t s in
  Await (transactions_insert newTx) (fun r =>
    match r with
    | Fulfilled resp =>
        match data resp with
        | Some data =>
            SetState (setTransactions (fun prev =>
              bindC (map_first mapTransaction data) (fun tx => Normal (tx :: prev))))
              (Return tt)
        | None => Return tt
        end
    | Rejected e => Reject e
    end).

Definition approveTransaction (id : string) (_ : Store) : Act unit :=
  Await (transactions_update APPROVED id) (fun r =>
    match r with
    | Fulfilled resp =>
        match error resp with
        | None =>
            SetState (setTransactions (fun prev => Normal
              (map (fun t => if tx_id t =? id then with_status APPROVED t else t) prev)))
              (Return tt)
        | Some _ => Return tt
        end
    | Rejected e => Reject e
    end).

Definition rejectTransaction (id : string) (_ : Store) : Act unit :=
  Await (transactions_update REJECTED id) (fun r =>
    match r with
    | Fulfilled resp =>
        match error resp with
        | None =>
            SetState (setTransactions (fun prev => Normal
              (map (fun t => if tx_id t =? id then with_status REJECTED t else t) prev)))
              (Return tt)
        | Some _ => Return tt
        end
    | Rejected e => Reject e
    end).

Definition deleteTransaction (id : string) (_ : Store) : Act unit :=
  Await (transactions_delete id) (fun r =>
    match r with
    | Fulfilled resp =>
        match error resp with
        | None =>
            SetState (setTransactions (fun prev => Normal
              (filter (fun t => negb (tx_id t =? id)) prev))) (Return tt)
        | Some _ => Return tt
        end
    | Rejected e => Reject e
    end).

(** [randomSuffix] is what
    [Math.floor(10000000000 + Math.random() * 90000000000).toString()] gave. *)
Definition newMember (randomSuffix : string) (m : MemberInput) : MemberInsert :=
  let uniqueId := (uniqueId_prefix (mi_gender m) ++ randomSuffix)%string in
  {| ni_unique_id := uniqueId; ni_first_name := mi_firstName m;
     ni_last_name := mi_lastName m; ni_dob := mi_dob m;
     ni_sector := mi_sector m; ni_level := mi_level m;
     ni_gender := mi_gender m; ni_dossier_number := mi_dossierNumber m;
     ni_ine := mi_ine m; ni_balance := mi_balance m |}.

Definition addMember (randomSuffix : string) (m : MemberInput) (_ : Store)
  : Act unit :=
  let newMember := newMember randomSuffix m in
  Await (members_insert newMember) (fun r =>
    match r with
    | Fulfilled resp =>
        match data resp with
        | Some data =>
            SetState (setMembers (fun prev =>
              bindC (map_first mapMember data) (fun mem => Normal (prev ++ [mem]))))
              (Return tt)
        | None => Return tt
        end
    | Rejected e => Reject e
    end).

Definition deleteMember (id : string) (_ : Store) : Act unit :=
  Await (members_delete id) (fun r =>
    match r with
    | Fulfilled resp =>
        match error resp with
        | None =>
            SetState (setMembers (fun prev => Normal
              (filter (fun m => negb (m_id m =? id)) prev))) (Return tt)
        | Some _ => Return tt
        end
    | Rejected e => Reject e
    end).

(** [year] is [new Date().getFullYear()]; the identifier is left to the
    remote store when it is a placeholder. *)
Definition budgetData (year : num) (id : string) (amount : num) (category : string)
  : BudgetInsert :=
  {| bi_id := if prefix "b-" id then None else Some id;
     bi_category := category; bi_allocated_amount := amount;
     bi_year := year |}.

(** In the insert branch the reply row is mapped inside the updater, once
    per budget it replaces. *)
Definition updateBudget (year : num) (id : string) (amount : num) (category : string)
           (_ : Store) : Act unit :=
  let budgetData := budgetData year id amount category in
  if prefix "b-" id then
    Await (budgets_insert budgetData) (fun r =>
      match r with
      | Fulfilled resp =>
          match data resp with
          | Some data =>
              SetState (setBudgets (fun prev =>
                mapC (fun b => if b_id b =? id then map_first mapBudget data
                               else Normal b) prev)) (Return tt)
          | None => Return tt
          end
      | Rejected e => Reject e
      end)
  else
    Await (budgets_update amount id) (fun r =>
      match r with
      | Fulfilled _ =>
          SetState (setBudgets (fun prev => Normal
            (map (fun b => if b_id b =? id then with_allocatedAmount amount b else b)
                 prev))) (Return tt)
      | Rejected e => Reject e
      end).

Definition updateSettings (s' : AppSettings) (_ : Store) : Act unit :=
  Await (settings_update
           {| su_association_name := associationName s';
              su_currency := currency s'; su_logo_url := logoUrl s' |}) (fun r =>
    match r with
    | Fulfilled _ => SetState (setSettings (fun _ => s')) (Return tt)
    | Rejected e => Reject e
    end).

Definition addMessage (content : string) (s : Store) : Act unit :=
  match user s with
  | None => Return tt
  | Some user =>
      let memberInfo := memberInfo user (members s) in
      let newMsg :=
        {| gi_user_id := u_email user; gi_user_name := u_name user;
           gi_user_role := u_role user;
           gi_member_info_json :=
             if truthy memberInfo then
               match JSON_stringify memberInfo with
               | Some text => VString text
               | None => VUndefined
               end
             else VNull;
           gi_content := content |} in
      Await (messages_insert newMsg) (fun r =>
        match r with
        | Fulfilled _ => Return tt
        | Rejected e => Reject e
        end)
  end.

Definition deleteMessage (id : string) (_ : Store) : Act unit :=
  Await (messages_delete id) (fun r =>
    match r with
    | Fulfilled _ => Return tt
    | Rejected e => Reject e
    end).

(** ** The remote store, as the provider relies on it

    The store itself is outside the repository.  [serve db] answers each
    call as the queries read: [single()] gives the row when exactly one
    row passes the two [eq] filters and an error otherwise, a select gives
    the table, an insert followed by [select()] gives back the inserted row
    with the identifier the store assigns, an update or a delete gives
    neither data nor error. *)
Record Database : Type := mkDatabase {
  users : list UserRow;
  members_table : list MemberRow;
  transactions_table : list TransactionRow;
  budgets_table : list BudgetRow;
  messages_table : list MessageRow;
  settings_table : list SettingsRow;
  next_id : string
}.

Definition ok {D} (d : D) : Response D := mkResponse (Some d) None.
Definition done : Response unit := mkResponse None None.
Definition failed {D} (msg : string) : Response D := mkResponse None (Some msg).

Definition single {D} (rows : list D) : Response D :=
  match rows with
  | [row] => ok row
  | _ => failed "PGRST116"
  end.

Definition inserted_transaction (id : string) (t : TransactionInsert) : TransactionRow :=
  {| tr_id := id; tr_type := ti_type t; tr_category := ti_category t;
     tr_amount := VNumber (ti_amount t); tr_date := ti_date t;
     tr_description := ti_description t; tr_performed_by := ti_performed_by t;
     tr_matricule := ti_matricule t; tr_function := ti_function t;
     tr_receipt_number := ti_receipt_number t; tr_status := ti_status t;
     tr_responsible := ti_responsible t; tr_signature := ti_signature t;
     tr_proof_url := ti_proof_url t |}.

Definition inserted_member (id : string) (m : MemberInsert) : MemberRow :=
  {| mr_id := id; mr_unique_id := ni_unique_id m; mr_first_name := ni_first_name m;
     mr_last_name := ni_last_name m; mr_dob := ni_dob m; mr_sector := ni_sector m;
     mr_level := ni_level m; mr_gender := ni_gender m;
     mr_dossier_number := ni_dossier_number m; mr_ine := ni_ine m;
     mr_balance := VNumber (ni_balance m) |}.

Definition inserted_budget (id : string) (b : BudgetInsert) : BudgetRow :=
  {| br_id := match bi_id b with Some given => given | None => id end;
     br_category := bi_category b;
     br_allocated_amount := VNumber (bi_allocated_amount b);
     br_year := bi_year b |}.

Definition serve (db : Database) : Remote Query :=
  fun R q =>
    match q in Query R return Settled R with
    | users_single e p =>
        Fulfilled (single (filter (fun u => (ur_email u =? e) && (ur_password u =? p))
                                  (users db)))
    | members_select => Fulfilled (ok (members_table db))
    | transactions_select => Fulfilled (ok (transactions_table db))
    | budgets_select => Fulfilled (ok (budgets_table db))
    | messages_select => Fulfilled (ok (messages_table db))
    | settings_select => Fulfilled (ok (firstn 1 (settings_table db)))
    | transactions_insert newTx =>
        Fulfilled (ok [inserted_transaction (next_id db) newTx])
    | members_insert newMember =>
        Fulfilled (ok [inserted_member (next_id db) newMember])
    | budgets_insert budgetData =>
        Fulfilled (ok [inserted_budget (next_id db) budgetData])
    | transactions_update _ _ | transactions_delete _ | members_delete _
    | budgets_update _ _ | settings_update _ | messages_insert _
    | messages_delete _ => Fulfilled done
    end.

(** A remote that refuses every call: [{ data: null, error }]. *)
Definition refuse (msg : string) : Remote Query :=
  fun R q =>
    match q in Query R return Settled R with
    | users_single _ _ => Fulfilled (failed msg)
    | members_select => Fulfilled (failed msg)
    | transactions_select => Fulfilled (failed msg)
    | budgets_select => Fulfilled (failed msg)
    | messages_select => Fulfilled (failed msg)
    | settings_select => Fulfilled (failed msg)
    | transactions_insert _ => Fulfilled (failed msg)
    | members_insert _ => Fulfilled (failed msg)
    | budgets_insert _ => Fulfilled (failed msg)
    | transactions_update _ _ | transactions_delete _ | members_delete _
    | budgets_update _ _ | settings_update _ | messages_insert _
    | messages_delete _ => Fulfilled (failed msg)
    end.

(** A remote whose every promise rejects. *)
Definition unreachable (e : Exn) : Remote Query :=
  fun R _ => Rejected e.

(** The reply carries an error, or never came. *)
Definition errored {D} (r : Settled (Response D)) : bool :=
  match r with
  | Fulfilled resp => match error resp with Some _ => true | None => false end
  | Rejected _ => true
  end.
End Provider.

Arguments mkResponse {D} data error.
Arguments data {D} r.
Arguments error {D} r.
End Supabase.

(* ================================================================== *)
(** * A host with exact decimal numbers

    A concrete host, for running the store on examples: numbers are exact
    decimals (doubles agree with them as long as nothing is rounded), with
    NaN; JSON texts are read by the JSON grammar and written in plain
    decimal notation at every magnitude.  Strings are byte strings: a
    [\u] escape is read as the UTF-8 bytes of its code unit. *)

Module Exact.

(** [Dec m k] is [m / 10^k], with [m] not a multiple of 10 unless [k = 0]. *)
Inductive decimal : Type :=
| NaN
| Dec (m : Z) (k : nat).

Fixpoint strip (m : Z) (k : nat) : decimal :=
  match k with
  | O => Dec m 0
  | S k' => if (m mod 10 =? 0)%Z then strip (m / 10) k' else Dec m k
  end.

Definition scale (m : Z) (from to : nat) : Z := (m * 10 ^ Z.of_nat (to - from))%Z.

Definition dec_add (a b : decimal) : decimal :=
  match a, b with
  | Dec m1 k1, Dec m2 k2 =>
      let k := Nat.max k1 k2 in strip (scale m1 k1 k + scale m2 k2 k) k
  | _, _ => NaN
  end.

Definition dec_sub (a b : decimal) : decimal :=
  match a, b with
  | Dec m1 k1, Dec m2 k2 =>
      let k := Nat.max k1 k2 in strip (scale m1 k1 k - scale m2 k2 k) k
  | _, _ => NaN
  end.

Definition dec_truthy (a : decimal) : bool :=
  match a with
  | NaN => false
  | Dec m _ => negb (m =? 0)%Z
  end.

Definition of_Z (z : Z) : decimal := Dec z 0.

(** ** Reading numbers *)

Definition quote : ascii := ascii_of_nat 34.

Definition is_digit (c : ascii) : bool :=
  (48 <=? nat_of_ascii c)%nat && (nat_of_ascii c <=? 57)%nat.

Definition is_ws (c : ascii) : bool :=
  let n := nat_of_ascii c in
  (n =? 32)%nat || (n =? 9)%nat || (n =? 10)%nat || (n =? 13)%nat.

Fixpoint skip_ws (l : list ascii) : list ascii :=
  match l with
  | c :: r => if is_ws c then skip_ws r else l
  | [] => []
  end.

Fixpoint span_digits (l : list ascii) : list ascii * list ascii :=
  match l with
  | c :: r =>
      if is_digit c then let (ds, rest) := span_digits r in (c :: ds, rest)
      else ([], l)
  | [] => ([], [])
  end.

Definition digits_value (ds : list ascii) : Z :=
  fold_left (fun acc c => (acc * 10 + Z.of_nat (nat_of_ascii c - 48))%Z) ds 0%Z.

(** [.digits], when there is one: the digits and the rest; [None] on a dot
    that no digit follows. *)
Definition lex_fraction (l : list ascii) : option (list ascii * list ascii) :=
  match l with
  | c :: r =>
      if Ascii.eqb c "." then
        match span_digits r with
        | ([], _) => None
        | (fs, rest) => Some (fs, rest)
        end
      else Some ([], l)
  | [] => Some ([], l)
  end.

(** [e±digits], when there is one: the exponent and the rest. *)
Definition lex_exponent (l : list ascii) : option (Z * list ascii) :=
  match l with
  | c :: r =>
      if Ascii.eqb c "e" || Ascii.eqb c "E" then
        let (negative, r') :=
          match r with
          | s :: r1 => if Ascii.eqb s "-" then (true, r1)
                       else if Ascii.eqb s "+" then (false, r1) else (false, r)
          | [] => (false, r)
          end in
        match span_digits r' with
        | ([], _) => None
        | (es, rest) =>
            Some ((if negative then - digits_value es else digits_value es)%Z, rest)
        end
      else Some (0%Z, l)
  | [] => Some (0%Z, l)
  end.

(** The value of [int.frac e exp]. *)
Definition decimal_of (negative : bool) (int_ds frac_ds : list ascii) (e : Z) : decimal :=
  let d := digits_value (int_ds ++ frac_ds) in
  let m := if negative then (- d)%Z else d in
  let k := (Z.of_nat (List.length frac_ds) - e)%Z in
  if (0 <=? k)%Z then strip m (Z.to_nat k) else Dec (m * 10 ^ (- k))%Z 0.

(** A JSON number at the head of [l]: no leading zero, no bare dot. *)
Definition lex_number (l : list ascii) : option (decimal * list ascii) :=
  let (negative, l1) :=
    match l with
    | c :: r => if Ascii.eqb c "-" then (true, r) else (false, l)
    | [] => (false, l)
    end in
  match l1 with
  | c :: r =>
      if is_digit c then
        let (int_ds, l2) := if Ascii.eqb c "0" then ([c], r) else span_digits l1 in
        match lex_fraction l2 with
        | Some (frac_ds, l3) =>
            match lex_exponent l3 with
            | Some (e, l4) => Some (decimal_of negative int_ds frac_ds e, l4)
            | None => None
            end
        | None => None
        end
      else None
  | [] => None
  end.

(** ** Reading strings *)

Definition hex_digit (c : ascii) : option nat :=
  let n := nat_of_ascii c in
  if (48 <=? n)%nat && (n <=? 57)%nat then Some (n - 48)
  else if (97 <=? n)%nat && (n <=? 102)%nat then Some (n - 87)
  else if (65 <=? n)%nat && (n <=? 70)%nat then Some (n - 55)
  else None.

Definition utf8 (code : nat) : list ascii :=
  if (code <? 128)%nat then [ascii_of_nat code]
  else if (code <? 2048)%nat then
    [ascii_of_nat (192 + code / 64); ascii_of_nat (128 + code mod 64)]
  else
    [ascii_of_nat (224 + code / 4096); ascii_of_nat (128 + (code / 64) mod 64);
     ascii_of_nat (128 + code mod 64)].

(** The characters of a string, after its opening quote, up to the closing
    one; [acc] holds the characters read, last first. *)
Fixpoint lex_chars (l : list ascii) (acc : list ascii) : option (string * list ascii) :=
  match l with
  | [] => None
  | c :: r =>
      if Ascii.eqb c quote then Some (string_of_list_ascii (rev acc), r)
      else if Ascii.eqb c "\" then
        match r with
        | e :: r1 =>
            if Ascii.eqb e quote then lex_chars r1 (quote :: acc)
            else if Ascii.eqb e "\" then lex_chars r1 ("\"%char :: acc)
            else if Ascii.eqb e "/" then lex_chars r1 ("/"%char :: acc)
            else if Ascii.eqb e "b" then lex_chars r1 (ascii_of_nat 8 :: acc)
            else if Ascii.eqb e "f" then lex_chars r1 (ascii_of_nat 12 :: acc)
            else if Ascii.eqb e "n" then lex_chars r1 (ascii_of_nat 10 :: acc)
            else if Ascii.eqb e "r" then lex_chars r1 (ascii_of_nat 13 :: acc)
            else if Ascii.eqb e "t" then lex_chars r1 (ascii_of_nat 9 :: acc)
            else if Ascii.eqb e "u" then
              match r1 with
              | h1 :: h2 :: h3 :: h4 :: r2 =>
                  match hex_digit h1, hex_digit h2, hex_digit h3, hex_digit h4 with
                  | Some a, Some b, Some c', Some d =>
                      lex_chars r2 (rev (utf8 (((a * 16 + b) * 16 + c') * 16 + d)) ++ acc)
                  | _, _, _, _ => None
                  end
              | _ => None
              end
            else None
        | [] => None
        end
      else if (nat_of_ascii c <? 32)%nat then None
      else lex_chars r (c :: acc)
  end.

Fixpoint strip_prefix (word l : list ascii) : option (list ascii) :=
  match word, l with
  | [], _ => Some l
  | w :: word', c :: r => if Ascii.eqb w c then strip_prefix word' r else None
  | _ :: _, [] => None
  end.

(** ** Reading values *)

Definition chars (text : string) : list ascii := list_ascii_of_string text.

(** A value at the head of [l], after white space; [parse_elements] reads
    the elements of an array after one of them, [parse_members] the
    members of an object from a key on.  Each call consumes a character,
    so the length of the text is fuel enough. *)
Fixpoint parse_value (fuel : nat) (l : list ascii)
  : option (JsValue decimal * list ascii) :=
  match fuel with
  | O => None
  | S fuel' =>
      match skip_ws l with
      | [] => None
      | c :: r =>
          if Ascii.eqb c quote then
            match lex_chars r [] with
            | Some (s, rest) => Some (VString s, rest)
            | None => None
            end
          else if Ascii.eqb c "[" then
            match skip_ws r with
            | d :: r' =>
                if Ascii.eqb d "]" then Some (VArray [], r')
                else
                  match parse_value fuel' r with
                  | Some (v, rest) =>
                      match parse_elements fuel' rest [v] with
                      | Some (items, rest') => Some (VArray items, rest')
                      | None => None
                      end
                  | None => None
                  end
            | [] => None
            end
          else if Ascii.eqb c "{" then
            match skip_ws r with
            | d :: r' =>
                if Ascii.eqb d "}" then Some (VObject [], r')
                else
                  match parse_members fuel' r [] with
                  | Some (fields, rest) => Some (VObject fields, rest)
                  | None => None
                  end
            | [] => None
            end
          else
            match strip_prefix (chars "null") (c :: r) with
            | Some rest => Some (VNull, rest)
            | None =>
                match strip_prefix (chars "true") (c :: r) with
                | Some rest => Some (VBool true, rest)
                | None =>
                    match strip_prefix (chars "false") (c :: r) with
                    | Some rest => Some (VBool false, rest)
                    | None =>
                        match lex_number (c :: r) with
                        | Some (n, rest) => Some (VNumber n, rest)
                        | None => None
                        end
                    end
                end
            end
      end
  end
with parse_elements (fuel : nat) (l : list ascii) (acc : list (JsValue decimal))
  : option (list (JsValue decimal) * list ascii) :=
  match fuel with
  | O => None
  | S fuel' =>
      match skip_ws l with
      | c :: r =>
          if Ascii.eqb c "]" then Some (rev acc, r)
          else if Ascii.eqb c "," then
            match parse_value fuel' r with
            | Some (v, rest) => parse_elements fuel' rest (v :: acc)
            | None => None
            end
          else None
      | [] => None
      end
  end
with parse_members (fuel : nat) (l : list ascii)
                   (acc : list (string * JsValue decimal))
  : option (list (string * JsValue decimal) * list ascii) :=
  match fuel with
  | O => None
  | S fuel' =>
      match skip_ws l with
      | c :: r =>
          if Ascii.eqb c quote then
            match lex_chars r [] with
            | Some (key, rest) =>
                match skip_ws rest with
                | colon :: rest1 =>
                    if Ascii.eqb colon ":" then
                      match parse_value fuel' rest1 with
                      | Some (v, rest2) =>
                          match skip_ws rest2 with
                          | d :: rest3 =>
                              if Ascii.eqb d "}" then Some (rev ((key, v) :: acc), rest3)
                              else if Ascii.eqb d "," then
                                parse_members fuel' rest3 ((key, v) :: acc)
                              else None
                          | [] => None
                          end
                      | None => None
                      end
                    else None
                | [] => None
                end
            | None => None
            end
          else None
      | [] => None
      end
  end.

(** [JSON.parse(text)]: one value, and nothing but white space after it. *)
Definition parse (text : string) : option (JsValue decimal) :=
  match parse_value (S (String.length text)) (chars text) with
  | Some (v, rest) =>
      match skip_ws rest with
      | [] => Some v
      | _ :: _ => None
      end
  | None => None
  end.

(** The decimal literal a text starts with, as parseFloat reads it: a sign,
    digits, a dot and digits (one of the two groups may be empty, not both),
    an exponent when digits follow it.  Infinity is no decimal: it reads as
    NaN here. *)
Definition lex_float (l : list ascii) : decimal :=
  let (negative, l1) :=
    match l with
    | c :: r => if Ascii.eqb c "-" then (true, r)
                else if Ascii.eqb c "+" then (false, r) else (false, l)
    | [] => (false, l)
    end in
  let (int_ds, l2) := span_digits l1 in
  let (frac_ds, l3) :=
    match l2 with
    | c :: r => if Ascii.eqb c "." then span_digits r else ([], l2)
    | [] => ([], l2)
    end in
  match int_ds, frac_ds with
  | [], [] => NaN
  | _, _ =>
      decimal_of negative int_ds frac_ds
        match lex_exponent l3 with
        | Some (e, _) => e
        | None => 0%Z
        end
  end.

(** [parseFloat(x)]: a number as it is, the number a string starts with
    after white space, NaN on anything else. *)
Definition dec_parseFloat (x : JsValue decimal) : decimal :=
  match x with
  | VNumber n => n
  | VString s => lex_float (skip_ws (chars s))
  | _ => NaN
  end.

(** ** Writing values *)

Fixpoint zeros (n : nat) : string :=
  match n with
  | O => ""
  | S n' => String "0" (zeros n')
  end.

Definition show_decimal (d : decimal) : string :=
  match d with
  | NaN => "null"
  | Dec m O => show_int m
  | Dec m k =>
      let p := (10 ^ Z.of_nat k)%Z in
      let frac := show_int (Z.abs m mod p) in
      ((if (m <? 0)%Z then "-" else "") ++ show_int (Z.abs m / p) ++ "."
       ++ zeros (k - String.length frac) ++ frac)%string
  end.

Definition hex_char (n : nat) : ascii :=
  if (n <? 10)%nat then ascii_of_nat (48 + n) else ascii_of_nat (87 + n).

Definition escape_char (c : ascii) : string :=
  let n := nat_of_ascii c in
  if Ascii.eqb c quote then String "\" (String quote "")
  else if Ascii.eqb c "\" then "\\"
  else if (n =? 8)%nat then "\b"
  else if (n =? 12)%nat then "\f"
  else if (n =? 10)%nat then "\n"
  else if (n =? 13)%nat then "\r"
  else if (n =? 9)%nat then "\t"
  else if (n <? 32)%nat then
    ("\u00" ++ String (hex_char (n / 16)) (String (hex_char (n mod 16)) ""))%string
  else String c "".

Fixpoint escape (s : string) : string :=
  match s with
  | EmptyString => ""
  | String c s' => (escape_char c ++ escape s')%string
  end.

Definition quoted (s : string) : string :=
  (String quote (escape s) ++ String quote "")%string.

(** [JSON.stringify(v)]: undefined inside an array is written [null], a
    member whose value is undefined is left out. *)
Fixpoint stringify (v : JsValue decimal) : option string :=
  match v with
  | VUndefined => None
  | VNull => Some "null"
  | VBool true => Some "true"
  | VBool false => Some "false"
  | VNumber n => Some (show_decimal n)
  | VString s => Some (quoted s)
  | VArray items =>
      Some ("[" ++ String.concat ","
              (map (fun x => match stringify x with
                             | Some t => t
                             | None => "null"
                             end) items) ++ "]")%string
  | VObject fields =>
      Some ("{" ++ String.concat ","
              (flat_map (fun kv => match stringify (snd kv) with
                                   | Some t => [(quoted (fst kv) ++ ":" ++ t)%string]
                                   | None => []
                                   end) fields) ++ "}")%string
  end.

#[export] Instance host : JsHost := {|
  num := decimal;
  add := dec_add;
  sub := dec_sub;
  zero := of_Z 0;
  truthy_num := dec_truthy;
  parseFloat := dec_parseFloat;
  JSON_parse := parse;
  JSON_stringify := stringify
|}.
End Exact.

(* ================================================================== *)
(** * The words of the statements *)

Section Statements.
Context `{JsHost}.

(** The transaction with identifier [id] takes status [st], whatever its
    status was; any other is left as it is. *)
Definition decided (st : Status) (id : string) (t : Transaction) : Transaction :=
  if tx_id t =? id then with_status st t else t.

(** A receipt number that is there and is not the empty string. *)
Definition has_receipt (receipt : option string) : Prop :=
  exists text, receipt = Some text /\ text <> "".

(** The status a creation gives under session [session]. *)
Definition status_at_creation (session : option User) : Status :=
  match session with
  | Some {| u_role := TRESORIER |} => APPROVED
  | _ => PENDING
  end.

(** The message [mapMessage] builds from row [m] once it has [info]. *)
Definition message_of (m : Supabase.MessageRow) (info : JsValue num) : CommunityMessage :=
  {| msg_id := Supabase.msr_id m; msg_userId := Supabase.msr_user_id m;
     msg_userName := Supabase.msr_user_name m;
     msg_userRole := Supabase.msr_user_role m;
     msg_content := Supabase.msr_content m;
     msg_timestamp := Supabase.msr_created_at m;
     msg_memberInfo := info |}.

(** The session principal made from a credential record. *)
Definition principal (row : Supabase.UserRow) : User :=
  {| u_email := Supabase.ur_email row; u_name := Supabase.ur_name row;
     u_role := Supabase.ur_role row; u_memberId := Supabase.ur_member_id row |}.

(** The record matches the email and the secret exactly. *)
Definition matches (email pass : string) (row : Supabase.UserRow) : bool :=
  (Supabase.ur_email row =? email) && (Supabase.ur_password row =? pass).

(** The logins the in-memory provider accepts: the administrator with the
    secret, and the two demo addresses with any secret. *)
Definition mock_accepts (ADMIN_EMAIL ADMIN_PASS email pass : string) : bool :=
  (email =? ADMIN_EMAIL) && (pass =? ADMIN_PASS)
  || (email =? "president@asso.com")
  || (email =? "membre@asso.com").

(** The store with another session. *)
Definition with_user (session : option User) (s : Supabase.Store) : Supabase.Store :=
  Supabase.mkStore session (Supabase.transactions s) (Supabase.members s)
    (Supabase.budgets s) (Supabase.messages s) (Supabase.settings s)
    (Supabase.isLoading s).

(** The record the lookup found, if it found one. *)
Definition found (reply : Settled (Supabase.Response Supabase.UserRow))
  : option Supabase.UserRow :=
  match reply with
  | Fulfilled resp => Supabase.data resp
  | Rejected _ => None
  end.
End Statements.

(* ================================================================== *)
(** * Sample data, on the exact host *)

#[global] Existing Instance Exact.host.

Module Sample.

Definition ADMIN_EMAIL : string := "admin@asso.com".
Definition ADMIN_PASS : string := "s3cret".

(** The two demo transactions of the in-memory provider. *)
Definition t1 : Transaction :=
  {| tx_id := "t1"; tx_type := INCOME; tx_category := "Cotisation";
     tx_amount := Exact.of_Z 15000; tx_date := "2023-10-01";
     tx_description := "Cotisation annuelle"; tx_performedBy := "Jean Dupont";
     tx_matricule := "A00000000001"; tx_function := "Membre";
     tx_responsible := "Tresorier"; tx_status := APPROVED;
     tx_signature := "SIG-123"; tx_receiptNumber := Some "REC-001";
     tx_proofUrl := None |}.

Definition t2 : Transaction :=
  {| tx_id := "t2"; tx_type := EXPENSE; tx_category := "Transport";
     tx_amount := Exact.of_Z 2000; tx_date := "2023-10-05";
     tx_description := "Taxi pour reunion prefecture";
     tx_performedBy := "Marie Curie"; tx_matricule := "B00000000001";
     tx_function := "Secretaire"; tx_responsible := "President";
     tx_status := PENDING; tx_signature := "SIG-124";
     tx_receiptNumber := None; tx_proofUrl := None |}.

(** An expense that was rejected. *)
Definition t3 : Transaction :=
  {| tx_id := "t3"; tx_type := EXPENSE; tx_category := "Transport";
     tx_amount := Exact.of_Z 700; tx_date := "2023-10-09";
     tx_description := "Bus"; tx_performedBy := "Marie Curie";
     tx_matricule := "B00000000001"; tx_function := "Secretaire";
     tx_responsible := "President"; tx_status := REJECTED;
     tx_signature := "SIG-125"; tx_receiptNumber := None; tx_proofUrl := None |}.

Definition jean : Member :=
  {| m_id := "1"; m_dossierNumber := "0001"; m_ine := "INE123456";
     m_uniqueId := "A00000000001"; m_firstName := "Jean"; m_lastName := "Dupont";
     m_dob := "1998-05-12"; m_sector := "INFO"; m_level := "L2";
     m_gender := MALE; m_balance := Exact.of_Z 5000 |}.

Definition categories : list string := ["Transport"; "Restauration"].

Definition budget (id category : string) (allocated : Z) : Budget :=
  {| b_id := id; b_category := category; b_allocatedAmount := Exact.of_Z allocated;
     b_spentAmount := Exact.of_Z 0; b_year := Exact.of_Z 2024 |}.

Definition budgets : list Budget :=
  [budget "b-0" "Transport" 50000; budget "b-1" "Restauration" 25000].

Definition persisted_budgets : list Budget :=
  [budget "7" "Transport" 50000; budget "8" "Restauration" 25000].

Definition settings : AppSettings :=
  {| associationName := "A.E.U.C.A.B.DK"; currency := "FCFA"; logoUrl := "" |}.

Definition new_settings : AppSettings :=
  {| associationName := "UCAB"; currency := "EUR"; logoUrl := "" |}.

Definition treasurer : User :=
  {| u_email := "tresorier@asso.com"; u_name := "Awa"; u_role := TRESORIER;
     u_memberId := None |}.

Definition member : User :=
  {| u_email := "membre@asso.com"; u_name := "Jean Dupont"; u_role := MEMBRE;
     u_memberId := Some "1" |}.

Definition income : TransactionInput :=
  {| in_type := INCOME; in_category := "Cotisation"; in_amount := Exact.of_Z 1500;
     in_date := "2024-01-10"; in_description := "Cotisation";
     in_performedBy := "Jean Dupont"; in_matricule := "A00000000001";
     in_function := "Membre"; in_receiptNumber := None;
     in_responsible := "Tresorier"; in_proofUrl := None |}.

Definition expense : TransactionInput :=
  {| in_type := EXPENSE; in_category := "Transport"; in_amount := Exact.of_Z 300;
     in_date := "2024-01-11"; in_description := "Taxi";
     in_performedBy := "Marie Curie"; in_matricule := "B00000000001";
     in_function := "Secretaire"; in_receiptNumber := None;
     in_responsible := "President"; in_proofUrl := None |}.

(** Stores of the in-memory provider. *)
Definition mock_store (session : option User) (ts : list Transaction) : Mock.Store :=
  Mock.mkStore session ts [jean] budgets [] settings.

(** Stores of the provider backed by the remote store. *)
Definition store (session : option User) (ts : list Transaction) (bs : list Budget)
  : Supabase.Store :=
  Supabase.mkStore session ts [jean] bs [] settings false.

(** A remote store with two credential records. *)
Definition db : Supabase.Database :=
  {| Supabase.users :=
       [ {| Supabase.ur_email := "tresorier@asso.com"; Supabase.ur_password := "caisse";
            Supabase.ur_name := "Awa"; Supabase.ur_role := TRESORIER;
            Supabase.ur_member_id := None |};
         {| Supabase.ur_email := "membre@asso.com"; Supabase.ur_password := "jean";
            Supabase.ur_name := "Jean Dupont"; Supabase.ur_role := MEMBRE;
            Supabase.ur_member_id := Some "1" |} ];
     Supabase.members_table := []; Supabase.transactions_table := [];
     Supabase.budgets_table := []; Supabase.messages_table := [];
     Supabase.settings_table := []; Supabase.next_id := "42" |}.

(** A message row whose snapshot of the author is not a JSON text. *)
Definition malformed_row : Supabase.MessageRow :=
  {| Supabase.msr_id := "m7"; Supabase.msr_user_id := "membre@asso.com";
     Supabase.msr_user_name := "Jean Dupont"; Supabase.msr_user_role := MEMBRE;
     Supabase.msr_content := "Salut"; Supabase.msr_created_at := "2024-01-12T08:00:00Z";
     Supabase.member_info_json := VString "{" |}.

(** The same row with the given cell. *)
Definition row_with (cell : JsValue Exact.decimal) : Supabase.MessageRow :=
  {| Supabase.msr_id := "m7"; Supabase.msr_user_id := "membre@asso.com";
     Supabase.msr_user_name := "Jean Dupont"; Supabase.msr_user_role := MEMBRE;
     Supabase.msr_content := "Salut"; Supabase.msr_created_at := "2024-01-12T08:00:00Z";
     Supabase.member_info_json := cell |}.

(** A remote store that holds one member, one transaction and the message
    row that is not a JSON text. *)
Definition db_malformed : Supabase.Database :=
  {| Supabase.users := [];
     Supabase.members_table :=
       [ {| Supabase.mr_id := "1"; Supabase.mr_unique_id := "A00000000001";
            Supabase.mr_first_name := "Jean"; Supabase.mr_last_name := "Dupont";
            Supabase.mr_dob := "1998-05-12"; Supabase.mr_sector := "INFO";
            Supabase.mr_level := "L2"; Supabase.mr_gender := MALE;
            Supabase.mr_dossier_number := "0001"; Supabase.mr_ine := "INE123456";
            Supabase.mr_balance := VString "5000" |} ];
     Supabase.transactions_table :=
       [ {| Supabase.tr_id := "t9"; Supabase.tr_type := EXPENSE;
            Supabase.tr_category := "Transport";
            Supabase.tr_amount := VNumber (Exact.of_Z 700);
            Supabase.tr_date := "2023-10-09"; Supabase.tr_description := "Bus";
            Supabase.tr_performed_by := "Marie Curie";
            Supabase.tr_matricule := "B00000000001";
            Supabase.tr_function := "Secretaire";
            Supabase.tr_receipt_number := None; Supabase.tr_status := APPROVED;
            Supabase.tr_responsible := "President";
            Supabase.tr_signature := "SIG-125"; Supabase.tr_proof_url := None |} ];
     Supabase.budgets_table :=
       [ {| Supabase.br_id := "7"; Supabase.br_category := "Transport";
            Supabase.br_allocated_amount := VNumber (Exact.of_Z 50000);
            Supabase.br_year := Exact.of_Z 2024 |} ];
     Supabase.messages_table := [malformed_row];
     Supabase.settings_table :=
       [ {| Supabase.sr_association_name := "UCAB"; Supabase.sr_currency := "EUR";
            Supabase.sr_logo_url := None |} ];
     Supabase.next_id := "42" |}.


(** A remote that answers every insert with an empty array. *)
Definition inserts_nothing : Remote Supabase.Query :=
  fun R q =>
    match q in Supabase.Query R return Settled R with
    | Supabase.transactions_insert _ => Fulfilled (Supabase.ok [])
    | Supabase.members_insert _ => Fulfilled (Supabase.ok [])
    | Supabase.budgets_insert _ => Fulfilled (Supabase.ok [])
    | q' => Supabase.serve db _ q'
    end.

End Sample.

(* ================================================================== *)
(** * The budget recomputation *)

Section Recompute.
Context `{JsHost}.

Lemma fold_filter_one_pass (category : string) (T : list Transaction) (acc : num) :
  fold_left (fun a t => add a (tx_amount t))
    (filter (fun t => TransactionType_eqb (tx_type t) EXPENSE
                      && (tx_category t =? category)
                      && Status_eqb (tx_status t) APPROVED) T) acc
  = approved_expense_sum category acc T.
Proof.
  revert acc.
  induction T as [| t T IH]; intros acc; simpl; [reflexivity |].
  destruct (tx_type t), (tx_status t), (tx_category t =? category);
    simpl; apply IH.
Qed.

Lemma spent_one_pass (T : list Transaction) (b : Budget) :
  spent T b = approved_expense_sum (b_category b) zero T.
Proof. apply fold_filter_one_pass. Qed.

(** The sum a budget gets depends on its category alone. *)
Lemma spent_category (T : list Transaction) (b b' : Budget) :
  b_category b = b_category b' -> spent T b = spent T b'.
Proof. intros E. unfold spent. rewrite E. reflexivity. Qed.

Lemma newBudgets_length (T : list Transaction) (B : list Budget) :
  List.length (newBudgets T B) = List.length B.
Proof. apply length_map. Qed.

(** C1.  For every transaction list [T] and budget list [B], the budget of
    rank [i] of the recomputed list is the budget of rank [i] of [B] with
    its spentAmount replaced by the sum of [t.amount] over the
    transactions [t] of [T] (in their order, from 0) with type EXPENSE,
    status APPROVED and the budget's category; id, category,
    allocatedAmount and year are those of [B[i]], and the list keeps its
    length. *)
Theorem newBudgets_spentAmount (T : list Transaction) (B : list Budget) (i : nat) :
  nth_error (newBudgets T B) i =
    option_map (fun b =>
      {| b_id := b_id b;
         b_category := b_category b;
         b_allocatedAmount := b_allocatedAmount b;
         b_spentAmount := approved_expense_sum (b_category b) zero T;
         b_year := b_year b |}) (nth_error B i)
  /\ List.length (newBudgets T B) = List.length B.
Proof.
  split; [| apply newBudgets_length].
  unfold newBudgets. rewrite nth_error_map.
  destruct (nth_error B i) as [b |]; simpl; [| reflexivity].
  unfold with_spentAmount. rewrite spent_one_pass. reflexivity.
Qed.

Lemma newBudgets_idempotent (T : list Transaction) (B : list Budget) :
  newBudgets T (newBudgets T B) = newBudgets T B.
Proof.
  unfold newBudgets. rewrite map_map. apply map_ext. intros b.
  rewrite (spent_category T (with_spentAmount (spent T b) b) b) by reflexivity.
  reflexivity.
Qed.

Lemma differ_same (a : option string) : differ a a = false.
Proof. destruct a as [x |]; simpl; [| reflexivity]. now rewrite String.eqb_refl. Qed.

Lemma differ_false (a b : option string) : differ a b = false -> a = b.
Proof.
  destruct a as [x |], b as [y |]; simpl; try discriminate; [| reflexivity].
  intros E. apply negb_false_iff in E. apply String.eqb_eq in E. now subst.
Qed.

(** The guard of the effect keeps the old list only when it and the new
    one are written alike: either way the budgets the effect leaves are
    written as the recomputed ones. *)
Lemma recomputed_written (T : list Transaction) (B : list Budget) :
  JSON_stringify (VArray (map Budget_value (recomputed T B)))
  = JSON_stringify (VArray (map Budget_value (newBudgets T B))).
Proof.
  unfold recomputed.
  destruct (differ _ _) eqn:E; [reflexivity |].
  symmetry. now apply differ_false.
Qed.

(** On a host that writes different budget lists differently, the effect
    leaves the recomputed budgets. *)
Lemma recomputed_newBudgets (T : list Transaction) (B : list Budget) :
  (forall B1 B2 : list Budget,
      JSON_stringify (VArray (map Budget_value B1))
      = JSON_stringify (VArray (map Budget_value B2)) -> B1 = B2) ->
  recomputed T B = newBudgets T B.
Proof.
  intros inj. unfold recomputed.
  destruct (differ _ _) eqn:E; [reflexivity |].
  symmetry. apply inj. now apply differ_false.
Qed.

Lemma recomputed_idempotent (T : list Transaction) (B : list Budget) :
  recomputed T (recomputed T B) = recomputed T B.
Proof.
  destruct (differ (JSON_stringify (VArray (map Budget_value (newBudgets T B))))
                   (JSON_stringify (VArray (map Budget_value B)))) eqn:E.
  - assert (R : recomputed T B = newBudgets T B)
      by (unfold recomputed; cbv zeta; now rewrite E).
    rewrite R. unfold recomputed. cbv zeta.
    rewrite newBudgets_idempotent, differ_same. reflexivity.
  - assert (R : recomputed T B = B)
      by (unfold recomputed; cbv zeta; now rewrite E).
    rewrite R. exact R.
Qed.

(** C9.  The budget recomputation is idempotent: for every transaction
    list [T] and budget list [B], recomputing from the recomputed budgets
    gives the recomputed budgets again; so does the effect, with its guard,
    in both providers. *)
Theorem recompute_idempotent (T : list Transaction) (B : list Budget) :
  newBudgets T (newBudgets T B) = newBudgets T B
  /\ recomputed T (recomputed T B) = recomputed T B.
Proof. split; [apply newBudgets_idempotent | apply recomputed_idempotent]. Qed.
End Recompute.

(* ================================================================== *)
(** * Approving and rejecting *)

Section Decisions.
Context `{JsHost}.

Lemma with_status_same (t : Transaction) : with_status (tx_status t) t = t.
Proof. destruct t; reflexivity. Qed.

Lemma decided_status (st : Status) (id : string) (t : Transaction) :
  tx_status (decided st id t) = if tx_id t =? id then st else tx_status t.
Proof. unfold decided. destruct (tx_id t =? id); reflexivity. Qed.

Lemma decided_other_fields (st st' : Status) (id : string) (t : Transaction) :
  with_status st' (decided st id t) = with_status st' t.
Proof. unfold decided. destruct (tx_id t =? id); reflexivity. Qed.

Lemma decided_same (id : string) (t : Transaction) : decided (tx_status t) id t = t.
Proof. unfold decided. destruct (tx_id t =? id); [apply with_status_same | reflexivity]. Qed.

Lemma decided_idempotent (st : Status) (id : string) (t : Transaction) :
  decided st id (decided st id t) = decided st id t.
Proof.
  unfold decided. destruct (tx_id t =? id) eqn:E; simpl; [| now rewrite E].
  now rewrite E.
Qed.

Lemma approveTransaction_run (remote : Remote Supabase.Query) (id : string)
      (s : Supabase.Store) :
  call remote (Supabase.approveTransaction id) s =
    let reply := remote _ (Supabase.transactions_update APPROVED id) in
    mkRun [existT _ _ (Supabase.transactions_update APPROVED id)]
      (if Supabase.errored reply then s
       else Supabase.mkStore (Supabase.user s)
              (map (decided APPROVED id) (Supabase.transactions s))
              (Supabase.members s) (Supabase.budgets s) (Supabase.messages s)
              (Supabase.settings s) (Supabase.isLoading s))
      (match reply with
       | Fulfilled _ => Returned tt
       | Rejected e => Thrown e
       end).
Proof.
  unfold call, Supabase.approveTransaction. cbn.
  destruct (remote _ _) as [resp | e]; cbn; [| reflexivity].
  destruct (Supabase.error resp); reflexivity.
Qed.

Lemma rejectTransaction_run (remote : Remote Supabase.Query) (id : string)
      (s : Supabase.Store) :
  call remote (Supabase.rejectTransaction id) s =
    let reply := remote _ (Supabase.transactions_update REJECTED id) in
    mkRun [existT _ _ (Supabase.transactions_update REJECTED id)]
      (if Supabase.errored reply then s
       else Supabase.mkStore (Supabase.user s)
              (map (decided REJECTED id) (Supabase.transactions s))
              (Supabase.members s) (Supabase.budgets s) (Supabase.messages s)
              (Supabase.settings s) (Supabase.isLoading s))
      (match reply with
       | Fulfilled _ => Returned tt
       | Rejected e => Thrown e
       end).
Proof.
  unfold call, Supabase.rejectTransaction. cbn.
  destruct (remote _ _) as [resp | e]; cbn; [| reflexivity].
  destruct (Supabase.error resp); reflexivity.
Qed.

(** C2, as amended.  [approveTransaction] gives the status APPROVED to every
    cached transaction with the given identifier, whatever its status was,
    and [rejectTransaction] the status REJECTED (in the provider backed by
    the remote store: unless the remote update reports an error or never
    answers, and then the cache is as it was).  So approving an APPROVED
    transaction changes nothing, and a REJECTED one becomes APPROVED; no
    other field and no other transaction changes. *)
Theorem approve_reject_overwrite_status
        (remote : Remote Supabase.Query) (id : string)
        (s : Supabase.Store) (m : Mock.Store) :
  Supabase.transactions (final (call remote (Supabase.approveTransaction id) s))
  = (if Supabase.errored (remote _ (Supabase.transactions_update APPROVED id))
     then Supabase.transactions s
     else map (decided APPROVED id) (Supabase.transactions s))
  /\ Supabase.transactions (final (call remote (Supabase.rejectTransaction id) s))
     = (if Supabase.errored (remote _ (Supabase.transactions_update REJECTED id))
        then Supabase.transactions s
        else map (decided REJECTED id) (Supabase.transactions s))
  /\ Mock.transactions (final (call Mock.no_remote (Mock.approveTransaction id) m))
     = map (decided APPROVED id) (Mock.transactions m)
  /\ Mock.transactions (final (call Mock.no_remote (Mock.rejectTransaction id) m))
     = map (decided REJECTED id) (Mock.transactions m)
  /\ (forall st t, tx_status (decided st id t) = if tx_id t =? id then st else tx_status t)
  /\ (forall st st' t, with_status st' (decided st id t) = with_status st' t)
  /\ (forall t, decided (tx_status t) id t = t).
Proof.
  repeat split.
  - rewrite approveTransaction_run. cbn.
    destruct (Supabase.errored _); reflexivity.
  - rewrite rejectTransaction_run. cbn.
    destruct (Supabase.errored _); reflexivity.
  - intros st t. apply decided_status.
  - intros st st' t. apply decided_other_fields.
  - intros t. apply decided_same.
Qed.
End Decisions.

(** C2, a counterexample.  Approving the rejected expense t3 makes it
    APPROVED, and rejecting the approved income t1 makes it REJECTED, in
    both providers. *)
Lemma approve_revives_rejected :
  tx_status Sample.t3 = REJECTED
  /\ map tx_status (Supabase.transactions (final
       (call (Supabase.serve Sample.db) (Supabase.approveTransaction "t3")
             (Sample.store None [Sample.t3] Sample.budgets)))) = [APPROVED]
  /\ map tx_status (Mock.transactions (final
       (call Mock.no_remote (Mock.approveTransaction "t3")
             (Sample.mock_store None [Sample.t3])))) = [APPROVED]
  /\ tx_status Sample.t1 = APPROVED
  /\ map tx_status (Supabase.transactions (final
       (call (Supabase.serve Sample.db) (Supabase.rejectTransaction "t1")
             (Sample.store None [Sample.t1] Sample.budgets)))) = [REJECTED]
  /\ map tx_status (Mock.transactions (final
       (call Mock.no_remote (Mock.rejectTransaction "t1")
             (Sample.mock_store None [Sample.t1])))) = [REJECTED].
Proof. repeat split. Qed.

(* ================================================================== *)
(** * Remote failures *)

Section Failures.
Context `{JsHost}.

(** The mutations that test the reply leave the cache as it was when the
    reply carries an error or never comes. *)
Lemma guarded_mutations_keep_cache (remote : Remote Supabase.Query) (id : string)
      (s : Supabase.Store) :
  (Supabase.errored (remote _ (Supabase.transactions_update APPROVED id)) = true ->
   final (call remote (Supabase.approveTransaction id) s) = s)
  /\ (Supabase.errored (remote _ (Supabase.transactions_update REJECTED id)) = true ->
      final (call remote (Supabase.rejectTransaction id) s) = s)
  /\ (Supabase.errored (remote _ (Supabase.transactions_delete id)) = true ->
      final (call remote (Supabase.deleteTransaction id) s) = s)
  /\ (Supabase.errored (remote _ (Supabase.members_delete id)) = true ->
      final (call remote (Supabase.deleteMember id) s) = s).
Proof.
  repeat split; intros E.
  - rewrite approveTransaction_run. cbn. now rewrite E.
  - rewrite rejectTransaction_run. cbn. now rewrite E.
  - revert E. unfold call, Supabase.deleteTransaction. cbn.
    destruct (remote _ _) as [resp | e]; cbn; [| reflexivity].
    destruct (Supabase.error resp); [reflexivity | discriminate].
  - revert E. unfold call, Supabase.deleteMember. cbn.
    destruct (remote _ _) as [resp | e]; cbn; [| reflexivity].
    destruct (Supabase.error resp); [reflexivity | discriminate].
Qed.

(** The insertions land only with the data of the reply. *)
Lemma insertions_need_data (remote : Remote Supabase.Query) (s : Supabase.Store)
      (now_rec now_sig : Z) (t : TransactionInput)
      (suffix : string) (m : MemberInput)
      (year amount : num) (id category : string) (e : option string) :
  (remote _ (Supabase.transactions_insert (Supabase.newTx now_rec now_sig t s))
   = Fulfilled (Supabase.mkResponse None e) ->
   final (call remote (Supabase.addTransaction now_rec now_sig t) s) = s)
  /\ (remote _ (Supabase.members_insert (Supabase.newMember suffix m))
      = Fulfilled (Supabase.mkResponse None e) ->
      final (call remote (Supabase.addMember suffix m) s) = s)
  /\ (prefix "b-" id = true ->
      remote _ (Supabase.budgets_insert (Supabase.budgetData year id amount category))
      = Fulfilled (Supabase.mkResponse None e) ->
      final (call remote (Supabase.updateBudget year id amount category) s) = s).
Proof.
  repeat split.
  - intros E. unfold call, Supabase.addTransaction. cbn. now rewrite E.
  - intros E. unfold call, Supabase.addMember. cbn. now rewrite E.
  - intros P E. unfold call, Supabase.updateBudget. rewrite P. cbn. now rewrite E.
Qed.

(** [updateSettings] and the update branch of [updateBudget] do not look at
    the reply: whenever the promise fulfils, with an error or without, the
    new value is in the cache. *)
Lemma unguarded_updates_land (remote : Remote Supabase.Query) (s : Supabase.Store)
      (s' : AppSettings) (year amount : num) (id category : string)
      (r1 r2 : Supabase.Response unit) :
  (remote _ (Supabase.settings_update
               {| Supabase.su_association_name := associationName s';
                  Supabase.su_currency := currency s';
                  Supabase.su_logo_url := logoUrl s' |}) = Fulfilled r1 ->
   Supabase.settings (final (call remote (Supabase.updateSettings s') s)) = s')
  /\ (prefix "b-" id = false ->
      remote _ (Supabase.budgets_update amount id) = Fulfilled r2 ->
      Supabase.budgets (final (call remote (Supabase.updateBudget year id amount category) s))
      = map (fun b => if b_id b =? id then with_allocatedAmount amount b else b)
            (Supabase.budgets s)).
Proof.
  split.
  - intros E. unfold call, Supabase.updateSettings. cbn. now rewrite E.
  - intros P E. unfold call, Supabase.updateBudget. rewrite P. cbn. now rewrite E.
Qed.
End Failures.

(** C3, the defect at work.  The remote refuses the update of the settings:
    the cache holds the new settings all the same.  It refuses the update
    of the persisted budget 7: the cache holds the new allocated amount all
    the same.  (It refuses the approval of t2: the cache is as it was.) *)
Theorem updates_land_despite_error :
  let s := Sample.store (Some Sample.treasurer) [Sample.t2] Sample.persisted_budgets in
  Supabase.settings s = Sample.settings
  /\ Supabase.settings (final
       (call (Supabase.refuse "permission denied")
             (Supabase.updateSettings Sample.new_settings) s)) = Sample.new_settings
  /\ map b_allocatedAmount (Supabase.budgets s)
     = [Exact.of_Z 50000; Exact.of_Z 25000]
  /\ map b_allocatedAmount (Supabase.budgets (final
       (call (Supabase.refuse "permission denied")
             (Supabase.updateBudget (Exact.of_Z 2024) "7" (Exact.of_Z 99) "Transport") s)))
     = [Exact.of_Z 99; Exact.of_Z 25000]
  /\ final (call (Supabase.refuse "permission denied")
                 (Supabase.approveTransaction "t2") s) = s.
Proof. repeat split. Qed.

(* ================================================================== *)
(** * Mapping a message row *)

Section MapMessage.
Context `{JsHost}.

Lemma nonempty_truthy (text : string) : text <> "" -> negb (text =? "") = true.
Proof.
  intros N. apply negb_true_iff. apply String.eqb_neq. exact N.
Qed.

(** C4, as amended.  An absent [member_info_json] (null or undefined), and
    the empty string too, map to a message whose memberInfo is undefined.
    On a non-empty string that is not a JSON text, JSON.parse throws a
    SyntaxError and [mapMessage] lets it through: no message comes out.  A
    non-empty JSON text maps to the value it denotes. *)
Theorem mapMessage_member_info (m : Supabase.MessageRow) :
  (Supabase.member_info_json m = VNull
   \/ Supabase.member_info_json m = VUndefined
   \/ Supabase.member_info_json m = VString "" ->
   Supabase.mapMessage m = Normal (message_of m VUndefined))
  /\ (forall text,
        Supabase.member_info_json m = VString text -> text <> "" ->
        JSON_parse text = None ->
        Supabase.mapMessage m = Throw SyntaxError)
  /\ (forall text v,
        Supabase.member_info_json m = VString text -> text <> "" ->
        JSON_parse text = Some v ->
        Supabase.mapMessage m = Normal (message_of m v)).
Proof.
  unfold Supabase.mapMessage, message_of. repeat split.
  - intros [E | [E | E]]; rewrite E; reflexivity.
  - intros text E N P. rewrite E. cbn. rewrite (nonempty_truthy text N), P. reflexivity.
  - intros text v E N P. rewrite E. cbn. rewrite (nonempty_truthy text N), P. reflexivity.
Qed.

(** A throw of [mapMessage] in a batch aborts the load: the messages, the
    settings and the budgets of the replies are not set. *)
Lemma fetched_aborts_on_throw (year : num)
      (resM : Supabase.Response (list Supabase.MemberRow))
      (resT : Supabase.Response (list Supabase.TransactionRow))
      (resB : Supabase.Response (list Supabase.BudgetRow))
      (resMsg : Supabase.Response (list Supabase.MessageRow))
      (resS : Supabase.Response (list Supabase.SettingsRow))
      (remote : Remote Supabase.Query) (rows : list Supabase.MessageRow) (e : Exn)
      (finally : Supabase.Act unit) (s : Supabase.Store) (categories : list string) :
  Supabase.data resMsg = Some rows ->
  mapC Supabase.mapMessage rows = Throw e ->
  let r := final (run remote
             (Supabase.fetched categories year resM resT resB resMsg resS (Return tt)) s) in
  Supabase.messages r = Supabase.messages s
  /\ Supabase.settings r = Supabase.settings s
  /\ Supabase.budgets r = Supabase.budgets s.
Proof.
  intros D E. unfold Supabase.fetched. rewrite D, E.
  destruct (Supabase.data resM), (Supabase.data resT); cbn; repeat split.
Qed.
End MapMessage.

(** C4, a counterexample.  The text [{] is not a JSON text; on the row that
    holds it, [mapMessage] throws. *)
Lemma mapMessage_throws_on_malformed :
  Supabase.member_info_json Sample.malformed_row = VString "{"
  /\ JSON_parse "{" = None
  /\ Supabase.mapMessage Sample.malformed_row = Throw SyntaxError.
Proof. repeat split. Qed.

(** The three cases at work: a null cell, a text that stops short, an
    array of two numbers. *)
Lemma mapMessage_member_info_witness :
  Supabase.mapMessage (Sample.row_with VNull)
  = Normal (message_of (Sample.row_with VNull) VUndefined)
  /\ Supabase.mapMessage (Sample.row_with (VString "[1,"))
     = Throw SyntaxError
  /\ Supabase.mapMessage (Sample.row_with (VString "[1, 2.5]"))
     = Normal (message_of (Sample.row_with (VString "[1, 2.5]"))
                          (VArray [VNumber (Exact.Dec 1 0); VNumber (Exact.Dec 25 1)])).
Proof.
  split; [| split].
  - apply (proj1 (mapMessage_member_info (Sample.row_with VNull))).
    left. reflexivity.
  - apply (proj1 (proj2 (mapMessage_member_info (Sample.row_with (VString "[1,"))))
             "[1,"); [reflexivity | discriminate | reflexivity].
  - apply (proj2 (proj2 (mapMessage_member_info (Sample.row_with (VString "[1, 2.5]"))))
             "[1, 2.5]"); [reflexivity | discriminate | reflexivity].
Defined.

(* ================================================================== *)
(** * Creating a transaction *)

Section Creation.
Context `{JsHost}.

Lemma has_receipt_REC (now : Z) : has_receipt (Some ("REC-" ++ show_int now)%string).
Proof. eexists. split; [reflexivity | discriminate]. Qed.

Lemma no_receipt : ~ has_receipt None.
Proof. intros [text [E _]]. discriminate. Qed.

Lemma receipt_by_type (ty : TransactionType) (now : Z) :
  has_receipt (if TransactionType_eqb ty INCOME
               then Some ("REC-" ++ show_int now)%string else None)
  <-> ty = INCOME.
Proof.
  destruct ty; simpl; split; intros X.
  - reflexivity.
  - apply has_receipt_REC.
  - destruct (no_receipt X).
  - discriminate.
Qed.

(** What [addTransaction] does in the in-memory provider: the new
    transaction goes to the head of the cache. *)
Lemma mock_addTransaction_run (random_id : string) (now_sig now_rec : Z)
      (t : TransactionInput) (m : Mock.Store) :
  call Mock.no_remote (Mock.addTransaction random_id now_sig now_rec t) m =
    mkRun [] (Mock.mkStore (Mock.user m)
                (Mock.newTx random_id now_sig now_rec t m :: Mock.transactions m)
                (Mock.members m) (Mock.budgets m) (Mock.messages m) (Mock.settings m))
          (Returned tt).
Proof. reflexivity. Qed.

(** What [addTransaction] sends, whatever the remote answers. *)
Lemma addTransaction_issued (remote : Remote Supabase.Query) (now_rec now_sig : Z)
      (t : TransactionInput) (s : Supabase.Store) :
  issued (call remote (Supabase.addTransaction now_rec now_sig t) s)
  = [existT _ _ (Supabase.transactions_insert (Supabase.newTx now_rec now_sig t s))].
Proof.
  unfold call, Supabase.addTransaction. cbn.
  destruct (remote _ _) as [resp | e]; cbn; [| reflexivity].
  destruct (Supabase.data resp) as [rows |]; cbn; [| reflexivity].
  destruct rows; reflexivity.
Qed.

(** With a remote store that inserts, the cache gets the created
    transaction at its head. *)
Lemma addTransaction_served (db : Supabase.Database) (now_rec now_sig : Z)
      (t : TransactionInput) (s : Supabase.Store) :
  Supabase.transactions
    (final (call (Supabase.serve db) (Supabase.addTransaction now_rec now_sig t) s))
  = Supabase.mapTransaction
      (Supabase.inserted_transaction (Supabase.next_id db)
         (Supabase.newTx now_rec now_sig t s))
    :: Supabase.transactions s.
Proof. reflexivity. Qed.

(** C5.  For every input of [addTransaction], the created transaction has a
    non-empty receipt number if and only if its type is INCOME: so for the
    transaction the in-memory provider adds to its cache, for the one the
    other provider sends to the remote store (it sends it whatever the
    session and the remote are), and for the one it caches once the store
    has inserted it. *)
Theorem receipt_iff_income
        (remote : Remote Supabase.Query) (db : Supabase.Database)
        (random_id : string) (now_rec now_sig : Z) (t : TransactionInput)
        (s : Supabase.Store) (m : Mock.Store) :
  (exists created,
      Mock.transactions
        (final (call Mock.no_remote (Mock.addTransaction random_id now_sig now_rec t) m))
      = created :: Mock.transactions m
      /\ tx_type created = in_type t
      /\ (has_receipt (tx_receiptNumber created) <-> tx_type created = INCOME))
  /\ (exists created,
         issued (call remote (Supabase.addTransaction now_rec now_sig t) s)
         = [existT _ _ (Supabase.transactions_insert created)]
         /\ Supabase.ti_type created = in_type t
         /\ (has_receipt (Supabase.ti_receipt_number created)
             <-> Supabase.ti_type created = INCOME))
  /\ (exists created,
         Supabase.transactions
           (final (call (Supabase.serve db)
                        (Supabase.addTransaction now_rec now_sig t) s))
         = created :: Supabase.transactions s
         /\ tx_type created = in_type t
         /\ (has_receipt (tx_receiptNumber created) <-> tx_type created = INCOME)).
Proof.
  split; [| split].
  - exists (Mock.newTx random_id now_sig now_rec t m).
    rewrite mock_addTransaction_run. cbn.
    repeat split; try apply receipt_by_type.
  - exists (Supabase.newTx now_rec now_sig t s).
    rewrite addTransaction_issued. cbn.
    repeat split; try apply receipt_by_type.
  - eexists. rewrite addTransaction_served. cbn.
    repeat split; try apply receipt_by_type.
Qed.

Lemma status_by_role (session : option User) :
  (forall u, session = Some u -> u_role u = TRESORIER ->
             match session with
             | Some u => if UserRole_eqb (u_role u) TRESORIER then APPROVED else PENDING
             | None => PENDING
             end = APPROVED)
  /\ ((forall u, session = Some u -> u_role u <> TRESORIER) ->
      match session with
      | Some u => if UserRole_eqb (u_role u) TRESORIER then APPROVED else PENDING
      | None => PENDING
      end = PENDING).
Proof.
  split.
  - intros u -> R. rewrite R. reflexivity.
  - intros N. destruct session as [u |]; [| reflexivity].
    specialize (N u eq_refl). destruct (u_role u); try reflexivity.
    now destruct N.
Qed.

(** C6.  For every input of [addTransaction]: when the session user's role
    is TRESORIER the created transaction has status APPROVED; with any other
    role, and with no session, it has status PENDING.  So for the
    transaction [addTransaction] puts at the head of the cache in the
    in-memory provider, for the one it sends to the remote store in the
    other provider (whatever the remote answers), and for the one it caches
    there once the store has inserted it. *)
Theorem status_at_creation_by_role
        (remote : Remote Supabase.Query) (db : Supabase.Database)
        (random_id : string) (now_rec now_sig : Z) (t : TransactionInput)
        (s : Supabase.Store) (m : Mock.Store) :
  (exists created,
      Mock.transactions
        (final (call Mock.no_remote (Mock.addTransaction random_id now_sig now_rec t) m))
      = created :: Mock.transactions m
      /\ tx_status created = status_at_creation (Mock.user m))
  /\ (exists created,
         issued (call remote (Supabase.addTransaction now_rec now_sig t) s)
         = [existT _ _ (Supabase.transactions_insert created)]
         /\ Supabase.ti_status created = status_at_creation (Supabase.user s))
  /\ (exists created,
         Supabase.transactions
           (final (call (Supabase.serve db)
                        (Supabase.addTransaction now_rec now_sig t) s))
         = created :: Supabase.transactions s
         /\ tx_status created = status_at_creation (Supabase.user s))
  /\ map tx_status (Supabase.transactions
       (final (call (Supabase.serve db) (Supabase.addTransaction now_rec now_sig t) s)))
     = status_at_creation (Supabase.user s) :: map tx_status (Supabase.transactions s)
  /\ (forall session u, session = Some u -> u_role u = TRESORIER ->
                        status_at_creation session = APPROVED)
  /\ (forall session, (forall u, session = Some u -> u_role u <> TRESORIER) ->
                      status_at_creation session = PENDING).
Proof.
  assert (S : forall session,
             match session with
             | Some u => if UserRole_eqb (u_role u) TRESORIER then APPROVED else PENDING
             | None => PENDING
             end = status_at_creation session).
  { intros [[e n [] i] |]; reflexivity. }
  split; [| split; [| split; [| split; [| split]]]].
  - exists (Mock.newTx random_id now_sig now_rec t m).
    rewrite mock_addTransaction_run. cbn. split; [reflexivity | apply S].
  - exists (Supabase.newTx now_rec now_sig t s).
    rewrite addTransaction_issued. cbn. split; [reflexivity | apply S].
  - eexists. rewrite addTransaction_served. split; [reflexivity |]. cbn. apply S.
  - rewrite addTransaction_served. cbn. now rewrite S.
  - intros session u E R. rewrite <- S. now apply (proj1 (status_by_role session) u).
  - intros session N. rewrite <- S. now apply (proj2 (status_by_role session)).
Qed.
End Creation.

(* ================================================================== *)
(** * Logging in *)

Section Login.
Context `{JsHost}.

(** [login] sends one lookup and always returns; it returns true, and sets
    the session, exactly when the lookup found a record. *)
Lemma login_run (remote : Remote Supabase.Query) (email pass : string)
      (s : Supabase.Store) :
  call remote (Supabase.login email pass) s =
    match found (remote _ (Supabase.users_single email pass)) with
    | Some row =>
        mkRun [existT _ _ (Supabase.users_single email pass)]
              (with_user (Some (principal row)) s) (Returned true)
    | None =>
        mkRun [existT _ _ (Supabase.users_single email pass)] s (Returned false)
    end.
Proof.
  unfold call, Supabase.login. cbn.
  destruct (remote _ _) as [resp | e]; cbn; [| reflexivity].
  destruct (Supabase.data resp); reflexivity.
Qed.

Lemma single_found {D} (rows : list D) (row : D) :
  Supabase.data (Supabase.single rows) = Some row <-> rows = [row].
Proof.
  destruct rows as [| r [| r' rows]]; cbn; split; intros E;
    try discriminate; congruence.
Qed.

(** The remote store finds a record only among those that match both the
    email and the secret, and only when it is the one that does. *)
Lemma serve_found (db : Supabase.Database) (email pass : string)
      (row : Supabase.UserRow) :
  found (Supabase.serve db _ (Supabase.users_single email pass)) = Some row
  <-> filter (matches email pass) (Supabase.users db) = [row].
Proof. cbn. apply single_found. Qed.

Lemma mock_login_run (ADMIN_EMAIL ADMIN_PASS email pass : string) (m : Mock.Store) :
  let r := call Mock.no_remote (Mock.login ADMIN_EMAIL ADMIN_PASS email pass) m in
  issued r = []
  /\ outcome r = Returned (mock_accepts ADMIN_EMAIL ADMIN_PASS email pass)
  /\ (mock_accepts ADMIN_EMAIL ADMIN_PASS email pass = false -> final r = m)
  /\ (mock_accepts ADMIN_EMAIL ADMIN_PASS email pass = true ->
      exists u, Mock.user (final r) = Some u /\ u_email u = email).
Proof.
  unfold call, Mock.login, mock_accepts.
  destruct ((email =? ADMIN_EMAIL) && (pass =? ADMIN_PASS));
    [| destruct (email =? "president@asso.com");
       [| destruct (email =? "membre@asso.com")]];
    cbn; repeat split; try discriminate; intros _; eexists; split; reflexivity.
Qed.

(** C7, as amended.  In the provider backed by the remote store, [login]
    returns true and sets the session principal only when the lookup finds a
    record, which the remote store does only for the one record that matches
    both the email and the secret exactly; when none or several match, when
    the lookup reports an error and when it throws, [login] returns false
    and the store, its session included, is as it was (null if it was null).
    In the in-memory provider, [login] accepts the administrator's email
    with the administrator's secret, and the two demo addresses
    president@asso.com and membre@asso.com with any secret; it returns false
    otherwise and the store is as it was. *)
Theorem login_sessions
        (remote : Remote Supabase.Query) (db : Supabase.Database)
        (ADMIN_EMAIL ADMIN_PASS email pass : string)
        (s : Supabase.Store) (m : Mock.Store) :
  (exists b, outcome (call remote (Supabase.login email pass) s) = Returned b)
  /\ (forall row,
        found (remote _ (Supabase.users_single email pass)) = Some row ->
        outcome (call remote (Supabase.login email pass) s) = Returned true
        /\ final (call remote (Supabase.login email pass) s)
           = with_user (Some (principal row)) s)
  /\ (found (remote _ (Supabase.users_single email pass)) = None ->
      outcome (call remote (Supabase.login email pass) s) = Returned false
      /\ final (call remote (Supabase.login email pass) s) = s)
  /\ (outcome (call (Supabase.serve db) (Supabase.login email pass) s) = Returned true ->
      exists row,
        filter (matches email pass) (Supabase.users db) = [row]
        /\ In row (Supabase.users db)
        /\ Supabase.ur_email row = email /\ Supabase.ur_password row = pass
        /\ Supabase.user (final (call (Supabase.serve db) (Supabase.login email pass) s))
           = Some (principal row))
  /\ (filter (matches email pass) (Supabase.users db) = [] ->
      outcome (call (Supabase.serve db) (Supabase.login email pass) s) = Returned false
      /\ final (call (Supabase.serve db) (Supabase.login email pass) s) = s)
  /\ outcome (call Mock.no_remote (Mock.login ADMIN_EMAIL ADMIN_PASS email pass) m)
     = Returned (mock_accepts ADMIN_EMAIL ADMIN_PASS email pass)
  /\ (mock_accepts ADMIN_EMAIL ADMIN_PASS email pass = false ->
      final (call Mock.no_remote (Mock.login ADMIN_EMAIL ADMIN_PASS email pass) m) = m).
Proof.
  split; [| split; [| split; [| split; [| split; [| split]]]]].
  - rewrite login_run. destruct (found _); eexists; reflexivity.
  - intros row F. rewrite login_run, F. split; reflexivity.
  - intros F. rewrite login_run, F. split; reflexivity.
  - rewrite login_run.
    destruct (found _) as [row |] eqn:F; cbn; [intros _ | discriminate].
    exists row. apply serve_found in F.
    assert (I : In row (filter (matches email pass) (Supabase.users db)))
      by (rewrite F; left; reflexivity).
    apply filter_In in I. destruct I as [I M].
    unfold matches in M. apply andb_true_iff in M. destruct M as [M1 M2].
    apply String.eqb_eq in M1. apply String.eqb_eq in M2.
    repeat split; assumption.
  - intros F. rewrite login_run.
    destruct (found _) as [row |] eqn:G; [| split; reflexivity].
    apply serve_found in G. rewrite F in G. discriminate.
  - apply mock_login_run.
  - apply mock_login_run.
Qed.
End Login.

(** C7, a counterexample.  No credential record can match both of two
    different secrets, and yet the in-memory provider opens a session for
    president@asso.com with either. *)
Lemma mock_login_any_secret :
  outcome (call Mock.no_remote
             (Mock.login Sample.ADMIN_EMAIL Sample.ADMIN_PASS "president@asso.com" "x")
             (Sample.mock_store None []))
  = Returned true
  /\ outcome (call Mock.no_remote
                (Mock.login Sample.ADMIN_EMAIL Sample.ADMIN_PASS "president@asso.com" "")
                (Sample.mock_store None []))
     = Returned true
  /\ Mock.user (final (call Mock.no_remote
                  (Mock.login Sample.ADMIN_EMAIL Sample.ADMIN_PASS "president@asso.com" "")
                  (Sample.mock_store None [])))
     = Some {| u_email := "president@asso.com"; u_name := "Président Association";
               u_role := PRESIDENT; u_memberId := None |}.
Proof. repeat split. Qed.

(** The member logs in with the stored secret; with another secret, or with
    a remote that refuses, the store is as it was; the administrator's
    email with a wrong secret leaves the in-memory store as it was. *)
Lemma login_sessions_witness :
  outcome (call (Supabase.serve Sample.db) (Supabase.login "membre@asso.com" "jean")
                (Sample.store None [] Sample.budgets)) = Returned true
  /\ Supabase.user (final (call (Supabase.serve Sample.db)
                                (Supabase.login "membre@asso.com" "jean")
                                (Sample.store None [] Sample.budgets)))
     = Some Sample.member
  /\ final (call (Supabase.serve Sample.db) (Supabase.login "membre@asso.com" "Jean")
                 (Sample.store None [] Sample.budgets))
     = Sample.store None [] Sample.budgets
  /\ final (call (Supabase.refuse "offline") (Supabase.login "membre@asso.com" "jean")
                 (Sample.store None [] Sample.budgets))
     = Sample.store None [] Sample.budgets
  /\ final (call Mock.no_remote
                 (Mock.login Sample.ADMIN_EMAIL Sample.ADMIN_PASS Sample.ADMIN_EMAIL "guess")
                 (Sample.mock_store None []))
     = Sample.mock_store None [].
Proof.
  pose proof (login_sessions (Supabase.serve Sample.db) Sample.db
                Sample.ADMIN_EMAIL Sample.ADMIN_PASS "membre@asso.com" "jean"
                (Sample.store None [] Sample.budgets) (Sample.mock_store None []))
    as [_ [Hfound _]].
  pose proof (login_sessions (Supabase.serve Sample.db) Sample.db
                Sample.ADMIN_EMAIL Sample.ADMIN_PASS "membre@asso.com" "Jean"
                (Sample.store None [] Sample.budgets) (Sample.mock_store None []))
    as [_ [_ [_ [_ [Hnone _]]]]].
  pose proof (login_sessions (Supabase.refuse "offline") Sample.db
                Sample.ADMIN_EMAIL Sample.ADMIN_PASS "membre@asso.com" "jean"
                (Sample.store None [] Sample.budgets) (Sample.mock_store None []))
    as [_ [_ [Hrefused _]]].
  pose proof (login_sessions (Supabase.serve Sample.db) Sample.db
                Sample.ADMIN_EMAIL Sample.ADMIN_PASS Sample.ADMIN_EMAIL "guess"
                (Sample.store None [] Sample.budgets) (Sample.mock_store None []))
    as [_ [_ [_ [_ [_ [_ Hmock]]]]]].
  destruct (Hfound _ eq_refl) as [O F].
  split; [exact O |].
  split; [rewrite F; reflexivity |].
  split; [exact (proj2 (Hnone eq_refl)) |].
  split; [exact (proj2 (Hrefused eq_refl)) |].
  exact (Hmock eq_refl).
Defined.

(* ================================================================== *)
(** * Updating a budget *)

Section UpdateBudget.
Context `{JsHost}.

Lemma mapC_Normal {A B} (f : A -> Completion B) (g : A -> B) (l : list A) :
  (forall a, f a = Normal (g a)) -> mapC f l = Normal (map g l).
Proof.
  intros E. induction l as [| a l IH]; cbn; [reflexivity |].
  rewrite E, IH. reflexivity.
Qed.

Lemma with_allocatedAmount_ids (amount : num) (id : string) (bs : list Budget) :
  map b_id (map (fun b => if b_id b =? id then with_allocatedAmount amount b else b) bs)
  = map b_id bs.
Proof.
  rewrite map_map. apply map_ext. intros b.
  destruct (b_id b =? id); reflexivity.
Qed.

(** The default budgets all carry the placeholder prefix. *)
Lemma map_indexed_placeholders (year : num) (cats : list string) (start : nat) :
  Forall (fun b => prefix "b-" (b_id b) = true)
    (map_indexed (fun cat index =>
       {| b_id := ("b-" ++ show_index index)%string; b_category := cat;
          b_allocatedAmount := zero; b_spentAmount := zero; b_year := year |})
       start cats).
Proof.
  revert start. induction cats as [| c cats IH]; intros start; cbn; constructor.
  - cbn. destruct (show_index start); reflexivity.
  - apply IH.
Qed.

Lemma defaultBudgets_placeholders (categories : list string) (year : num) :
  Forall (fun b => prefix "b-" (b_id b) = true) (Supabase.defaultBudgets categories year).
Proof. apply map_indexed_placeholders. Qed.

(** C8.  [updateBudget] on an identifier that carries the placeholder
    prefix [b-] sends an insert, without identifier, and, with the row the
    remote store answers, replaces each cache entry of that identifier by
    the mapped row, whose identifier is the one the store assigned (so
    without the prefix when the store assigns none with it).  On any other
    identifier it sends an update, and the identifiers in the cache stay as
    they were, the allocated amount of the entry being replaced once the
    update has been answered.  The prefix alone decides between the two. *)
Theorem updateBudget_dispatch
        (remote : Remote Supabase.Query)
        (year amount : num) (id category : string) (s : Supabase.Store) :
  let r := call remote (Supabase.updateBudget year id amount category) s in
  (prefix "b-" id = true ->
   issued r = [existT _ _ (Supabase.budgets_insert
                             (Supabase.budgetData year id amount category))]
   /\ Supabase.bi_id (Supabase.budgetData year id amount category) = None
   /\ (forall row rows e,
         remote _ (Supabase.budgets_insert (Supabase.budgetData year id amount category))
         = Fulfilled (Supabase.mkResponse (Some (row :: rows)) e) ->
         outcome r = Returned tt
         /\ Supabase.budgets (final r)
            = map (fun b => if b_id b =? id then Supabase.mapBudget row else b)
                  (Supabase.budgets s)
         /\ b_id (Supabase.mapBudget row) = Supabase.br_id row
         /\ (prefix "b-" (Supabase.br_id row) = false ->
             forall b, In b (Supabase.budgets (final r)) -> b_id b <> id)))
  /\ (prefix "b-" id = false ->
      issued r = [existT _ _ (Supabase.budgets_update amount id)]
      /\ map b_id (Supabase.budgets (final r)) = map b_id (Supabase.budgets s)
      /\ (forall resp,
            remote _ (Supabase.budgets_update amount id) = Fulfilled resp ->
            outcome r = Returned tt
            /\ Supabase.budgets (final r)
               = map (fun b => if b_id b =? id then with_allocatedAmount amount b else b)
                     (Supabase.budgets s))).
Proof.
  cbv zeta. split; intros P.
  - assert (R : forall row rows e,
               remote _ (Supabase.budgets_insert
                           (Supabase.budgetData year id amount category))
               = Fulfilled (Supabase.mkResponse (Some (row :: rows)) e) ->
               call remote (Supabase.updateBudget year id amount category) s
               = mkRun [existT _ _ (Supabase.budgets_insert
                                      (Supabase.budgetData year id amount category))]
                   (Supabase.mkStore (Supabase.user s) (Supabase.transactions s)
                      (Supabase.members s)
                      (map (fun b => if b_id b =? id then Supabase.mapBudget row else b)
                           (Supabase.budgets s))
                      (Supabase.messages s) (Supabase.settings s) (Supabase.isLoading s))
                   (Returned tt)).
    { intros row rows e E. unfold call, Supabase.updateBudget. rewrite P. cbn.
      rewrite E. cbn. unfold Supabase.setBudgets.
      rewrite (mapC_Normal _
                 (fun b => if b_id b =? id then Supabase.mapBudget row else b)).
      - reflexivity.
      - intros b. destruct (b_id b =? id); reflexivity. }
    split; [| split].
    + unfold call, Supabase.updateBudget. rewrite P. cbn.
      destruct (remote _ _) as [resp | e]; cbn; [| reflexivity].
      destruct (Supabase.data resp) as [rows |]; cbn; [| reflexivity].
      destruct (Supabase.setBudgets _ s); reflexivity.
    + unfold Supabase.budgetData. rewrite P. reflexivity.
    + intros row rows e E. rewrite (R row rows e E). cbn.
      repeat split.
      intros Q b I. apply in_map_iff in I. destruct I as [b0 [E0 _]].
      destruct (b_id b0 =? id) eqn:C.
      * subst b. cbn. intros X. rewrite X in Q. rewrite P in Q. discriminate.
      * subst b. apply String.eqb_neq. exact C.
  - split; [| split].
    + unfold call, Supabase.updateBudget. rewrite P. cbn.
      destruct (remote _ _); reflexivity.
    + unfold call, Supabase.updateBudget. rewrite P. cbn.
      destruct (remote _ _); cbn; [apply with_allocatedAmount_ids | reflexivity].
    + intros resp E. unfold call, Supabase.updateBudget. rewrite P. cbn.
      rewrite E. split; reflexivity.
Qed.
End UpdateBudget.

(** The placeholder budget b-0 is replaced by the row the store numbered
    42; the persisted budget 7 keeps its identifier and takes the amount. *)
Lemma updateBudget_dispatch_witness :
  map b_id (Supabase.budgets (final
    (call (Supabase.serve Sample.db)
          (Supabase.updateBudget (Exact.of_Z 2024) "b-0" (Exact.of_Z 60000) "Transport")
          (Sample.store (Some Sample.treasurer) [] Sample.budgets))))
  = ["42"; "b-1"]
  /\ map b_allocatedAmount (Supabase.budgets (final
       (call (Supabase.serve Sample.db)
             (Supabase.updateBudget (Exact.of_Z 2024) "7" (Exact.of_Z 60000) "Transport")
             (Sample.store (Some Sample.treasurer) [] Sample.persisted_budgets))))
     = [Exact.of_Z 60000; Exact.of_Z 25000]
  /\ map b_id (Supabase.budgets (final
       (call (Supabase.serve Sample.db)
             (Supabase.updateBudget (Exact.of_Z 2024) "7" (Exact.of_Z 60000) "Transport")
             (Sample.store (Some Sample.treasurer) [] Sample.persisted_budgets))))
     = ["7"; "8"].
Proof.
  pose proof (updateBudget_dispatch (Supabase.serve Sample.db)
                (Exact.of_Z 2024) (Exact.of_Z 60000) "b-0" "Transport"
                (Sample.store (Some Sample.treasurer) [] Sample.budgets)) as [Hins _].
  pose proof (updateBudget_dispatch (Supabase.serve Sample.db)
                (Exact.of_Z 2024) (Exact.of_Z 60000) "7" "Transport"
                (Sample.store (Some Sample.treasurer) [] Sample.persisted_budgets))
    as [_ Hupd].
  destruct (Hins eq_refl) as [_ [_ Hrow]].
  destruct (Hrow _ _ _ eq_refl) as [_ [Hb _]].
  destruct (Hupd eq_refl) as [_ [Hids Hresp]].
  destruct (Hresp _ eq_refl) as [_ Hamount].
  split; [rewrite Hb; reflexivity |].
  split; [rewrite Hamount; reflexivity |].
  rewrite Hids. reflexivity.
Defined.

(* ================================================================== *)
(** * Posting a message *)

Section AddMessage.
Context `{JsHost}.

(** C10.  Calling [addMessage] when no session is active is a complete
    no-op: no remote call goes out, the function returns, and the store
    (messages, transactions, members, budgets, settings, session) is the
    one it was called in, in both providers. *)
Theorem addMessage_without_session
        (remote : Remote Supabase.Query) (content random_id now_iso : string)
        (s : Supabase.Store) (m : Mock.Store) :
  Supabase.user s = None -> Mock.user m = None ->
  call remote (Supabase.addMessage content) s = mkRun [] s (Returned tt)
  /\ call Mock.no_remote (Mock.addMessage random_id now_iso content) m
     = mkRun [] m (Returned tt).
Proof.
  intros S M. unfold call, Supabase.addMessage, Mock.addMessage.
  rewrite S, M. split; reflexivity.
Qed.

(** With a session, a message is sent, and the in-memory provider appends
    one to its cache. *)
Lemma addMessage_with_session
      (remote : Remote Supabase.Query) (content random_id now_iso : string)
      (s : Supabase.Store) (m : Mock.Store) (u : User) :
  Supabase.user s = Some u -> Mock.user m = Some u ->
  List.length (issued (call remote (Supabase.addMessage content) s)) = 1
  /\ final (call remote (Supabase.addMessage content) s) = s
  /\ List.length (Mock.messages
       (final (call Mock.no_remote (Mock.addMessage random_id now_iso content) m)))
     = S (List.length (Mock.messages m)).
Proof.
  intros S M. unfold call, Supabase.addMessage, Mock.addMessage.
  rewrite S, M. cbn. destruct (remote _ _); cbn; repeat split;
    rewrite length_app; cbn; lia.
Qed.
End AddMessage.

(** With no session, a message is neither sent nor cached. *)
Lemma addMessage_without_session_witness :
  call (Supabase.serve Sample.db) (Supabase.addMessage "Bonjour")
       (Sample.store None [Sample.t1] Sample.budgets)
  = mkRun [] (Sample.store None [Sample.t1] Sample.budgets) (Returned tt)
  /\ call Mock.no_remote (Mock.addMessage "k3j9x1z0q" "2024-01-12T08:00:00.000Z" "Bonjour")
          (Sample.mock_store None [Sample.t1])
     = mkRun [] (Sample.mock_store None [Sample.t1]) (Returned tt).
Proof.
  apply (addMessage_without_session (Supabase.serve Sample.db)
           "Bonjour" "k3j9x1z0q" "2024-01-12T08:00:00.000Z"
           (Sample.store None [Sample.t1] Sample.budgets)
           (Sample.mock_store None [Sample.t1]));
    reflexivity.
Defined.

(* ================================================================== *)
(** * The demo data, run *)

(** The two demo transactions: an approved income of 15000 and a pending
    expense of 2000. *)
Example demo_stats :
  balance [Sample.t1; Sample.t2] = Exact.of_Z 15000
  /\ totalIncome [Sample.t1; Sample.t2] = Exact.of_Z 15000
  /\ totalExpense [Sample.t1; Sample.t2] = Exact.of_Z 0
  /\ pendingCount [Sample.t1; Sample.t2] = 1.
Proof. repeat split. Qed.

(** Once the expense is approved and the effect has run, the balance is
    13000 and the budget of Transport has 2000 spent. *)
Example demo_after_approval :
  let s := Mock.effect (final (call Mock.no_remote (Mock.approveTransaction "t2")
                                    (Sample.mock_store None [Sample.t1; Sample.t2]))) in
  balance (Mock.transactions s) = Exact.of_Z 13000
  /\ pendingCount (Mock.transactions s) = 0
  /\ map (fun b => (b_category b, b_spentAmount b)) (Mock.budgets s)
     = [("Transport", Exact.of_Z 2000); ("Restauration", Exact.of_Z 0)].
Proof. repeat split. Qed.

(** A treasurer's expense is approved at once and has no receipt number; a
    member's income is pending and has one. *)
Example demo_creation :
  (Supabase.ti_status
     (Supabase.newTx 1700000000000 1700000000001 Sample.expense
        (Sample.store (Some Sample.treasurer) [] Sample.budgets)),
   Supabase.ti_receipt_number
     (Supabase.newTx 1700000000000 1700000000001 Sample.expense
        (Sample.store (Some Sample.treasurer) [] Sample.budgets)))
  = (APPROVED, None)
  /\ (Supabase.ti_status
        (Supabase.newTx 1700000000000 1700000000001 Sample.income
           (Sample.store (Some Sample.member) [] Sample.budgets)),
      Supabase.ti_receipt_number
        (Supabase.newTx 1700000000000 1700000000001 Sample.income
           (Sample.store (Some Sample.member) [] Sample.budgets)))
     = (PENDING, Some "REC-1700000000000").
Proof. split; vm_compute; reflexivity. Qed.

(** With no budget row in the remote store, the load leaves the default
    budgets, under placeholder identifiers. *)
Example demo_fetchData :
  let s := final (call (Supabase.serve Sample.db)
                       (Supabase.fetchData Sample.categories (Exact.of_Z 2024))
                       (Sample.store None [] [])) in
  map b_id (Supabase.budgets s) = ["b-0"; "b-1"]
  /\ map b_category (Supabase.budgets s) = ["Transport"; "Restauration"]
  /\ Supabase.isLoading s = false.
Proof. repeat split. Qed.

(* ================================================================== *)
(** * Deleting a transaction *)

Section Deleting.
Context `{JsHost}.

Lemma deleteTransaction_run (remote : Remote Supabase.Query) (id : string)
      (s : Supabase.Store) :
  call remote (Supabase.deleteTransaction id) s =
    let reply := remote _ (Supabase.transactions_delete id) in
    mkRun [existT _ _ (Supabase.transactions_delete id)]
      (if Supabase.errored reply then s
       else Supabase.mkStore (Supabase.user s)
              (filter (fun t => negb (tx_id t =? id)) (Supabase.transactions s))
              (Supabase.members s) (Supabase.budgets s) (Supabase.messages s)
              (Supabase.settings s) (Supabase.isLoading s))
      (match reply with
       | Fulfilled _ => Returned tt
       | Rejected e => Thrown e
       end).
Proof.
  unfold call, Supabase.deleteTransaction. cbn.
  destruct (remote _ _) as [resp | e]; cbn; [| reflexivity].
  destruct (Supabase.error resp); reflexivity.
Qed.

Lemma keeps_others (id : string) (T : list Transaction) (t : Transaction) :
  In t (filter (fun t => negb (tx_id t =? id)) T) <-> In t T /\ tx_id t <> id.
Proof.
  rewrite filter_In. split; intros [I N]; split; try exact I.
  - apply negb_true_iff in N. now apply String.eqb_neq.
  - apply negb_true_iff. now apply String.eqb_neq.
Qed.

(** Once [deleteTransaction] has run and the remote delete reported no
    error, no cached transaction has the identifier any more, every other
    one is still cached, and the cache is shorter by the number of
    transactions that had it; when the delete reported an error or never
    answered, the cached transactions are those of before.  The in-memory
    provider always removes. *)
Theorem deleteTransaction_removes
        (remote : Remote Supabase.Query) (id : string)
        (s : Supabase.Store) (m : Mock.Store) :
  let reply := remote _ (Supabase.transactions_delete id) in
  let after := Supabase.transactions
                 (final (call remote (Supabase.deleteTransaction id) s)) in
  let mock_after := Mock.transactions
                      (final (call Mock.no_remote (Mock.deleteTransaction id) m)) in
  (forall t, In t after
             <-> In t (Supabase.transactions s)
                 /\ (Supabase.errored reply = true \/ tx_id t <> id))
  /\ List.length after
     + (if Supabase.errored reply then 0
        else List.length (filter (fun t => tx_id t =? id) (Supabase.transactions s)))
     = List.length (Supabase.transactions s)
  /\ (forall t, In t mock_after <-> In t (Mock.transactions m) /\ tx_id t <> id)
  /\ List.length mock_after
     + List.length (filter (fun t => tx_id t =? id) (Mock.transactions m))
     = List.length (Mock.transactions m).
Proof.
  cbv zeta. rewrite deleteTransaction_run. cbn.
  split; [| split; [| split]].
  - intros t. destruct (Supabase.errored _).
    + split; [intros I; split; [exact I | now left] | intros [I _]; exact I].
    + cbn. rewrite keeps_others. split; intros [I N]; split; try exact I.
      * now right.
      * destruct N as [N | N]; [discriminate | exact N].
  - destruct (Supabase.errored _); [lia |].
    cbn. rewrite Nat.add_comm. apply filter_length.
  - intros t. apply keeps_others.
  - rewrite Nat.add_comm. apply filter_length.
Qed.

(** In the in-memory provider, deleting the transaction that was just added
    gives back the store of before, when no cached transaction had the new
    identifier. *)
Theorem add_then_delete_restores
        (random_id : string) (now_sig now_rec : Z) (t : TransactionInput)
        (m : Mock.Store) :
  (forall t', In t' (Mock.transactions m) -> tx_id t' <> random_id) ->
  final (call Mock.no_remote (Mock.deleteTransaction random_id)
           (final (call Mock.no_remote
                     (Mock.addTransaction random_id now_sig now_rec t) m)))
  = m.
Proof.
  intros fresh. destruct m as [u ts ms bs msgs st]. cbn in *.
  rewrite String.eqb_refl. cbn. f_equal.
  rewrite forallb_filter_id; [reflexivity |].
  apply forallb_forall. intros t' I.
  apply negb_true_iff. apply String.eqb_neq. now apply fresh.
Qed.
End Deleting.

(** The demo store, an income added under the identifier k3j9x1z0q and
    deleted again. *)
Lemma add_then_delete_restores_witness :
  final (call Mock.no_remote (Mock.deleteTransaction "k3j9x1z0q")
           (final (call Mock.no_remote
                     (Mock.addTransaction "k3j9x1z0q" 1700000000000 1700000000001
                                          Sample.income)
                     (Sample.mock_store (Some Sample.member) [Sample.t1; Sample.t2]))))
  = Sample.mock_store (Some Sample.member) [Sample.t1; Sample.t2].
Proof.
  apply (add_then_delete_restores "k3j9x1z0q" 1700000000000 1700000000001
           Sample.income (Sample.mock_store (Some Sample.member) [Sample.t1; Sample.t2])).
  intros t' [<- | [<- | []]]; discriminate.
Defined.

(* ================================================================== *)
(** * Decisions, one after the other *)

Section Composing.
Context `{JsHost}.

Lemma decided_last (st1 st2 : Status) (id : string) (t : Transaction) :
  decided st2 id (decided st1 id t) = decided st2 id t.
Proof.
  unfold decided. destruct (tx_id t =? id) eqn:E; cbn; now rewrite E.
Qed.

Lemma decided_commute (st1 st2 : Status) (id1 id2 : string) (t : Transaction) :
  id1 <> id2 ->
  decided st1 id1 (decided st2 id2 t) = decided st2 id2 (decided st1 id1 t).
Proof.
  intros N. unfold decided.
  destruct (tx_id t =? id1) eqn:E1, (tx_id t =? id2) eqn:E2; cbn;
    rewrite ?E1, ?E2; try reflexivity.
  apply String.eqb_eq in E1, E2. congruence.
Qed.

Lemma decide_transactions (remote : Remote Supabase.Query) (id : string)
      (s : Supabase.Store) :
  final (call remote (Supabase.approveTransaction id) s)
  = (if Supabase.errored (remote _ (Supabase.transactions_update APPROVED id)) then s
     else Supabase.mkStore (Supabase.user s)
            (map (decided APPROVED id) (Supabase.transactions s))
            (Supabase.members s) (Supabase.budgets s) (Supabase.messages s)
            (Supabase.settings s) (Supabase.isLoading s))
  /\ final (call remote (Supabase.rejectTransaction id) s)
     = (if Supabase.errored (remote _ (Supabase.transactions_update REJECTED id)) then s
        else Supabase.mkStore (Supabase.user s)
               (map (decided REJECTED id) (Supabase.transactions s))
               (Supabase.members s) (Supabase.budgets s) (Supabase.messages s)
               (Supabase.settings s) (Supabase.isLoading s)).
Proof.
  rewrite approveTransaction_run, rejectTransaction_run. split; reflexivity.
Qed.

(** A decision that lands overrides the one before it: rejecting a
    transaction that was just approved leaves the cache as rejecting alone
    does, and approving one that was just rejected as approving alone does;
    a second decision that the remote refuses leaves the first in place. *)
Theorem last_decision_wins
        (remote : Remote Supabase.Query) (id : string)
        (s : Supabase.Store) (m : Mock.Store) :
  final (call remote (Supabase.rejectTransaction id)
           (final (call remote (Supabase.approveTransaction id) s)))
  = (if Supabase.errored (remote _ (Supabase.transactions_update REJECTED id))
     then final (call remote (Supabase.approveTransaction id) s)
     else final (call remote (Supabase.rejectTransaction id) s))
  /\ final (call remote (Supabase.approveTransaction id)
              (final (call remote (Supabase.rejectTransaction id) s)))
     = (if Supabase.errored (remote _ (Supabase.transactions_update APPROVED id))
        then final (call remote (Supabase.rejectTransaction id) s)
        else final (call remote (Supabase.approveTransaction id) s))
  /\ final (call Mock.no_remote (Mock.rejectTransaction id)
              (final (call Mock.no_remote (Mock.approveTransaction id) m)))
     = final (call Mock.no_remote (Mock.rejectTransaction id) m)
  /\ final (call Mock.no_remote (Mock.approveTransaction id)
              (final (call Mock.no_remote (Mock.rejectTransaction id) m)))
     = final (call Mock.no_remote (Mock.approveTransaction id) m).
Proof.
  assert (L : forall st1 st2 (T : list Transaction),
             map (decided st2 id) (map (decided st1 id) T) = map (decided st2 id) T).
  { intros st1 st2 T. rewrite map_map. apply map_ext. intros t. apply decided_last. }
  split; [| split; [| split]].
  - rewrite (proj2 (decide_transactions remote id _)).
    rewrite (proj2 (decide_transactions remote id s)).
    destruct (Supabase.errored (remote _ (Supabase.transactions_update REJECTED id)));
      [reflexivity |].
    rewrite (proj1 (decide_transactions remote id s)).
    destruct (Supabase.errored _); [reflexivity |]. cbn. now rewrite L.
  - rewrite (proj1 (decide_transactions remote id _)).
    rewrite (proj1 (decide_transactions remote id s)).
    destruct (Supabase.errored (remote _ (Supabase.transactions_update APPROVED id)));
      [reflexivity |].
    rewrite (proj2 (decide_transactions remote id s)).
    destruct (Supabase.errored _); [reflexivity |]. cbn. now rewrite L.
  - cbn. f_equal. apply (L APPROVED REJECTED).
  - cbn. f_equal. apply (L REJECTED APPROVED).
Qed.

(** Decisions on two different identifiers do not interfere: approving one
    transaction and rejecting another leave the same cache in either order,
    whatever the remote answers to each. *)
Theorem decisions_commute
        (remote : Remote Supabase.Query) (id1 id2 : string)
        (s : Supabase.Store) (m : Mock.Store) :
  id1 <> id2 ->
  final (call remote (Supabase.rejectTransaction id2)
           (final (call remote (Supabase.approveTransaction id1) s)))
  = final (call remote (Supabase.approveTransaction id1)
             (final (call remote (Supabase.rejectTransaction id2) s)))
  /\ final (call Mock.no_remote (Mock.rejectTransaction id2)
              (final (call Mock.no_remote (Mock.approveTransaction id1) m)))
     = final (call Mock.no_remote (Mock.approveTransaction id1)
                (final (call Mock.no_remote (Mock.rejectTransaction id2) m))).
Proof.
  intros N.
  assert (C : forall T : list Transaction,
             map (decided REJECTED id2) (map (decided APPROVED id1) T)
             = map (decided APPROVED id1) (map (decided REJECTED id2) T)).
  { intros T. rewrite !map_map. apply map_ext. intros t.
    symmetry. now apply decided_commute. }
  split.
  - pose proof (fun s0 => proj1 (decide_transactions remote id1 s0)) as HA.
    pose proof (fun s0 => proj2 (decide_transactions remote id2 s0)) as HR.
    repeat (rewrite HA || rewrite HR).
    destruct (Supabase.errored (remote _ (Supabase.transactions_update REJECTED id2))),
             (Supabase.errored (remote _ (Supabase.transactions_update APPROVED id1)));
      try reflexivity.
    cbn. now rewrite C.
  - cbn. f_equal. apply C.
Qed.
End Composing.

(** The pending expense t2 approved and the approved income t1 rejected, in
    both orders. *)
Lemma decisions_commute_witness :
  map tx_status (Supabase.transactions
    (final (call (Supabase.serve Sample.db) (Supabase.rejectTransaction "t1")
       (final (call (Supabase.serve Sample.db) (Supabase.approveTransaction "t2")
                 (Sample.store None [Sample.t1; Sample.t2] Sample.budgets))))))
  = [REJECTED; APPROVED]
  /\ final (call (Supabase.serve Sample.db) (Supabase.rejectTransaction "t1")
       (final (call (Supabase.serve Sample.db) (Supabase.approveTransaction "t2")
                 (Sample.store None [Sample.t1; Sample.t2] Sample.budgets))))
     = final (call (Supabase.serve Sample.db) (Supabase.approveTransaction "t2")
         (final (call (Supabase.serve Sample.db) (Supabase.rejectTransaction "t1")
                   (Sample.store None [Sample.t1; Sample.t2] Sample.budgets)))).
Proof.
  split; [reflexivity |].
  apply (decisions_commute (Supabase.serve Sample.db) "t2" "t1"
           (Sample.store None [Sample.t1; Sample.t2] Sample.budgets)
           (Sample.mock_store None [Sample.t1; Sample.t2])).
  discriminate.
Defined.

(* ================================================================== *)
(** * The statistics and the decisions *)

Section Statistics.
Context `{JsHost}.

(** The transactions that count, for a test [q] on anything but the status. *)
Lemma approved_after_reject (q : Transaction -> bool) (id : string)
      (T : list Transaction) :
  (forall st t, q (with_status st t) = q t) ->
  (forall t, In t T -> tx_id t = id -> tx_status t <> APPROVED) ->
  filter (fun t => q t && Status_eqb (tx_status t) APPROVED) (map (decided REJECTED id) T)
  = filter (fun t => q t && Status_eqb (tx_status t) APPROVED) T.
Proof.
  intros Q N. induction T as [| t T IH]; cbn [map filter]; [reflexivity |].
  rewrite IH by (intros t' I; apply N; now right).
  destruct (tx_id t =? id) eqn:E.
  - replace (decided REJECTED id t) with (with_status REJECTED t)
      by (unfold decided; now rewrite E).
    apply String.eqb_eq in E. specialize (N t (or_introl eq_refl) E).
    cbn. rewrite Q, andb_false_r.
    destruct (tx_status t); try now destruct N.
    + now rewrite andb_false_r.
    + now rewrite andb_false_r.
  - replace (decided REJECTED id t) with t by (unfold decided; now rewrite E).
    reflexivity.
Qed.

Lemma pending_after_approve (id : string) (T : list Transaction) :
  pendingCount (map (decided APPROVED id) T)
  + List.length (filter (fun t => Status_eqb (tx_status t) PENDING && (tx_id t =? id)) T)
  = pendingCount T.
Proof.
  unfold pendingCount. induction T as [| t T IH]; cbn [map filter]; [reflexivity |].
  destruct (tx_id t =? id) eqn:E.
  - replace (decided APPROVED id t) with (with_status APPROVED t)
      by (unfold decided; now rewrite E).
    cbn. destruct (tx_status t); cbn in *; lia.
  - replace (decided APPROVED id t) with t by (unfold decided; now rewrite E).
    rewrite andb_false_r. destruct (tx_status t); cbn in *; lia.
Qed.

(** Approving lowers the count of pending transactions by the number of
    pending transactions that had the identifier, and leaves none of that
    identifier pending (in the provider backed by the remote store: when
    the update reported no error; otherwise the count is that of before). *)
Theorem approve_lowers_pendingCount
        (remote : Remote Supabase.Query) (id : string)
        (s : Supabase.Store) (m : Mock.Store) :
  let pending_with_id T :=
    List.length (filter (fun t => Status_eqb (tx_status t) PENDING && (tx_id t =? id)) T) in
  let after := Supabase.transactions
                 (final (call remote (Supabase.approveTransaction id) s)) in
  let mock_after := Mock.transactions
                      (final (call Mock.no_remote (Mock.approveTransaction id) m)) in
  pendingCount mock_after + pending_with_id (Mock.transactions m)
  = pendingCount (Mock.transactions m)
  /\ pending_with_id mock_after = 0
  /\ pendingCount after
     + (if Supabase.errored (remote _ (Supabase.transactions_update APPROVED id))
        then 0 else pending_with_id (Supabase.transactions s))
     = pendingCount (Supabase.transactions s)
  /\ (if Supabase.errored (remote _ (Supabase.transactions_update APPROVED id))
      then pending_with_id after = pending_with_id (Supabase.transactions s)
      else pending_with_id after = 0).
Proof.
  cbv zeta.
  assert (Z : forall T : list Transaction,
             List.length (filter (fun t => Status_eqb (tx_status t) PENDING
                                           && (tx_id t =? id))
                                 (map (decided APPROVED id) T)) = 0).
  { induction T as [| t T IH]; cbn [map filter]; [reflexivity |].
    destruct (tx_id t =? id) eqn:E.
    - replace (decided APPROVED id t) with (with_status APPROVED t)
        by (unfold decided; now rewrite E).
      cbn. exact IH.
    - replace (decided APPROVED id t) with t by (unfold decided; now rewrite E).
      rewrite E, andb_false_r. exact IH. }
  rewrite approveTransaction_run. cbn.
  split; [apply pending_after_approve |].
  split; [apply Z |].
  destruct (Supabase.errored _); cbn.
  - split; [lia | reflexivity].
  - split; [apply pending_after_approve | apply Z].
Qed.

(** Rejecting a transaction that was not approved moves no figure: the
    total income, the total expense, the balance and the spent amount of
    every budget are those of before, whatever the remote answers. *)
Theorem reject_unapproved_keeps_totals
        (remote : Remote Supabase.Query) (id : string)
        (s : Supabase.Store) (m : Mock.Store) :
  (forall t, In t (Supabase.transactions s) -> tx_id t = id -> tx_status t <> APPROVED) ->
  (forall t, In t (Mock.transactions m) -> tx_id t = id -> tx_status t <> APPROVED) ->
  let after := Supabase.transactions
                 (final (call remote (Supabase.rejectTransaction id) s)) in
  let mock_after := Mock.transactions
                      (final (call Mock.no_remote (Mock.rejectTransaction id) m)) in
  (totalIncome after = totalIncome (Supabase.transactions s)
   /\ totalExpense after = totalExpense (Supabase.transactions s)
   /\ balance after = balance (Supabase.transactions s)
   /\ forall B, newBudgets after B = newBudgets (Supabase.transactions s) B)
  /\ (totalIncome mock_after = totalIncome (Mock.transactions m)
      /\ totalExpense mock_after = totalExpense (Mock.transactions m)
      /\ balance mock_after = balance (Mock.transactions m)
      /\ forall B, newBudgets mock_after B = newBudgets (Mock.transactions m) B).
Proof.
  intros N M. cbv zeta.
  assert (K : forall T : list Transaction,
             (forall t, In t T -> tx_id t = id -> tx_status t <> APPROVED) ->
             totalIncome (map (decided REJECTED id) T) = totalIncome T
             /\ totalExpense (map (decided REJECTED id) T) = totalExpense T
             /\ balance (map (decided REJECTED id) T) = balance T
             /\ forall B, newBudgets (map (decided REJECTED id) T) B = newBudgets T B).
  { intros T NT.
    assert (I : totalIncome (map (decided REJECTED id) T) = totalIncome T).
    { unfold totalIncome.
      now rewrite (approved_after_reject
                     (fun t => TransactionType_eqb (tx_type t) INCOME) id T). }
    assert (E : totalExpense (map (decided REJECTED id) T) = totalExpense T).
    { unfold totalExpense.
      now rewrite (approved_after_reject
                     (fun t => TransactionType_eqb (tx_type t) EXPENSE) id T). }
    repeat split; try assumption.
    - unfold balance. now rewrite I, E.
    - intros B. unfold newBudgets. apply map_ext. intros b. f_equal.
      unfold spent.
      now rewrite (approved_after_reject
                     (fun t => TransactionType_eqb (tx_type t) EXPENSE
                               && (tx_category t =? b_category b)) id T). }
  split.
  - rewrite rejectTransaction_run. cbn.
    destruct (Supabase.errored _); cbn; [repeat split | now apply K].
  - cbn. now apply K.
Qed.
End Statistics.

(** The pending expense t2 is rejected: the balance stays at 15000 and
    nothing is spent on Transport. *)
Lemma reject_unapproved_keeps_totals_witness :
  balance (Mock.transactions
             (final (call Mock.no_remote (Mock.rejectTransaction "t2")
                       (Sample.mock_store None [Sample.t1; Sample.t2]))))
  = Exact.of_Z 15000
  /\ map b_spentAmount
       (newBudgets (Supabase.transactions
                      (final (call (Supabase.serve Sample.db)
                                   (Supabase.rejectTransaction "t2")
                                   (Sample.store None [Sample.t1; Sample.t2]
                                                 Sample.budgets))))
                   Sample.budgets)
     = [Exact.of_Z 0; Exact.of_Z 0].
Proof.
  assert (N : forall t, In t [Sample.t1; Sample.t2] -> tx_id t = "t2" ->
                        tx_status t <> APPROVED)
    by (intros t [<- | [<- | []]]; discriminate).
  destruct (reject_unapproved_keeps_totals (Supabase.serve Sample.db) "t2"
              (Sample.store None [Sample.t1; Sample.t2] Sample.budgets)
              (Sample.mock_store None [Sample.t1; Sample.t2]) N N)
    as [[_ [_ [_ B]]] [_ [_ [M _]]]].
  split; [rewrite M; reflexivity | rewrite B; reflexivity].
Defined.

(* ================================================================== *)
(** * A creation that waits for approval *)

Section PendingCreation.
Context `{JsHost}.

Lemma pending_head (tx : Transaction) (T : list Transaction) :
  tx_status tx = PENDING ->
  totalIncome (tx :: T) = totalIncome T
  /\ totalExpense (tx :: T) = totalExpense T
  /\ balance (tx :: T) = balance T
  /\ pendingCount (tx :: T) = S (pendingCount T)
  /\ forall B, newBudgets (tx :: T) B = newBudgets T B.
Proof.
  intros P.
  assert (I : totalIncome (tx :: T) = totalIncome T)
    by (unfold totalIncome; cbn; now rewrite P, andb_false_r).
  assert (E : totalExpense (tx :: T) = totalExpense T)
    by (unfold totalExpense; cbn; now rewrite P, andb_false_r).
  repeat split; try assumption.
  - unfold balance. now rewrite I, E.
  - unfold pendingCount. cbn. now rewrite P.
  - intros B. unfold newBudgets. apply map_ext. intros b. f_equal.
    unfold spent. cbn. now rewrite P, andb_false_r.
Qed.

(** A transaction created under a session that is not the treasurer's (or
    under none) moves no figure: the total income, the total expense, the
    balance and the spent amount of every budget are those of before, and
    one more transaction is pending. *)
Theorem pending_creation_keeps_totals
        (db : Supabase.Database) (random_id : string) (now_rec now_sig : Z)
        (t : TransactionInput) (s : Supabase.Store) (m : Mock.Store) :
  (forall u, Supabase.user s = Some u -> u_role u <> TRESORIER) ->
  (forall u, Mock.user m = Some u -> u_role u <> TRESORIER) ->
  let after := Supabase.transactions
                 (final (call (Supabase.serve db)
                              (Supabase.addTransaction now_rec now_sig t) s)) in
  let mock_after := Mock.transactions
                      (final (call Mock.no_remote
                                   (Mock.addTransaction random_id now_sig now_rec t) m)) in
  (totalIncome after = totalIncome (Supabase.transactions s)
   /\ totalExpense after = totalExpense (Supabase.transactions s)
   /\ balance after = balance (Supabase.transactions s)
   /\ pendingCount after = S (pendingCount (Supabase.transactions s))
   /\ forall B, newBudgets after B = newBudgets (Supabase.transactions s) B)
  /\ (totalIncome mock_after = totalIncome (Mock.transactions m)
      /\ totalExpense mock_after = totalExpense (Mock.transactions m)
      /\ balance mock_after = balance (Mock.transactions m)
      /\ pendingCount mock_after = S (pendingCount (Mock.transactions m))
      /\ forall B, newBudgets mock_after B = newBudgets (Mock.transactions m) B).
Proof.
  intros N M. cbv zeta. split.
  - rewrite addTransaction_served. apply pending_head. cbn.
    now apply (proj2 (status_by_role (Supabase.user s))).
  - rewrite mock_addTransaction_run. apply pending_head. cbn.
    now apply (proj2 (status_by_role (Mock.user m))).
Qed.
End PendingCreation.

(** A member records an expense of 300 on Transport: the balance stays at
    15000, nothing is spent on Transport, two transactions are pending. *)
Lemma pending_creation_keeps_totals_witness :
  balance (Mock.transactions
             (final (call Mock.no_remote
                          (Mock.addTransaction "k3j9x1z0q" 1700000000001 1700000000000
                                               Sample.expense)
                          (Sample.mock_store (Some Sample.member)
                                             [Sample.t1; Sample.t2]))))
  = Exact.of_Z 15000
  /\ pendingCount (Supabase.transactions
       (final (call (Supabase.serve Sample.db)
                    (Supabase.addTransaction 1700000000000 1700000000001 Sample.expense)
                    (Sample.store (Some Sample.member) [Sample.t1; Sample.t2]
                                  Sample.budgets))))
     = 2.
Proof.
  assert (N : forall u, Some Sample.member = Some u -> u_role u <> TRESORIER)
    by (intros u E; injection E as <-; discriminate).
  destruct (pending_creation_keeps_totals Sample.db "k3j9x1z0q"
              1700000000000 1700000000001 Sample.expense
              (Sample.store (Some Sample.member) [Sample.t1; Sample.t2] Sample.budgets)
              (Sample.mock_store (Some Sample.member) [Sample.t1; Sample.t2]) N N)
    as [[_ [_ [_ [P _]]]] [_ [_ [B _]]]].
  split; [rewrite B; reflexivity | rewrite P; reflexivity].
Defined.

(* ================================================================== *)
(** * Messages: the actions and the change stream *)

Section Messages.
Context `{JsHost}.

Lemma mapMessage_id (row : Supabase.MessageRow) (msg : CommunityMessage) :
  Supabase.mapMessage row = Normal msg -> msg_id msg = Supabase.msr_id row.
Proof.
  unfold Supabase.mapMessage.
  destruct (if truthy _ then _ else _) as [info | e]; cbn; [| discriminate].
  intros E. injection E as <-. reflexivity.
Qed.

(** In the provider backed by the remote store, [addMessage] and
    [deleteMessage] never write the cache: whatever the remote answers, the
    store they end in is the one they started from.  Each sends one call;
    the message sent carries the email, the name and the role of the session
    user and the content given. *)
Theorem message_actions_leave_cache
        (remote : Remote Supabase.Query) (content id : string) (s : Supabase.Store) :
  final (call remote (Supabase.addMessage content) s) = s
  /\ final (call remote (Supabase.deleteMessage id) s) = s
  /\ issued (call remote (Supabase.deleteMessage id) s)
     = [existT _ _ (Supabase.messages_delete id)]
  /\ match Supabase.user s with
     | Some u =>
         exists newMsg,
           issued (call remote (Supabase.addMessage content) s)
           = [existT _ _ (Supabase.messages_insert newMsg)]
           /\ Supabase.gi_user_id newMsg = u_email u
           /\ Supabase.gi_user_name newMsg = u_name u
           /\ Supabase.gi_user_role newMsg = u_role u
           /\ Supabase.gi_content newMsg = content
     | None => issued (call remote (Supabase.addMessage content) s) = []
     end.
Proof.
  unfold call, Supabase.addMessage, Supabase.deleteMessage.
  split; [| split; [| split]].
  - destruct (Supabase.user s); cbn; [| reflexivity].
    destruct (remote _ _); reflexivity.
  - cbn. destruct (remote _ _); reflexivity.
  - cbn. destruct (remote _ _); reflexivity.
  - destruct (Supabase.user s) as [u |]; cbn; [| reflexivity].
    eexists. split; [destruct (remote _ _); reflexivity |].
    repeat split.
Qed.

(** An INSERT event appends the mapped message after the cached ones, also
    when the same row was already applied (the cache then holds it twice); a
    DELETE event for a message that was just inserted gives back the store
    of before, when no cached message had that identifier.  An INSERT event
    whose row [mapMessage] throws on leaves the cache as it was. *)
Theorem change_stream_events
        (remote : Remote Supabase.Query) (row : Supabase.MessageRow)
        (s : Supabase.Store) :
  (forall msg,
      Supabase.mapMessage row = Normal msg ->
      Supabase.messages (final (call remote (Supabase.onInsert row) s))
      = Supabase.messages s ++ [msg]
      /\ Supabase.messages
           (final (call remote (Supabase.onInsert row)
                     (final (call remote (Supabase.onInsert row) s))))
         = Supabase.messages s ++ [msg; msg]
      /\ ((forall old, In old (Supabase.messages s) ->
                       msg_id old <> Supabase.msr_id row) ->
          final (call remote (Supabase.onDelete (Supabase.msr_id row))
                   (final (call remote (Supabase.onInsert row) s))) = s))
  /\ (forall e,
        Supabase.mapMessage row = Throw e ->
        call remote (Supabase.onInsert row) s = mkRun [] s (Thrown e)).
Proof.
  unfold call, Supabase.onInsert, Supabase.onDelete. split.
  - intros msg E. rewrite E. cbn. split; [reflexivity |].
    split; [now rewrite <- app_assoc |].
    intros fresh. destruct s as [u ts ms bs msgs st l]. cbn in *. f_equal.
    rewrite filter_app. cbn.
    rewrite (mapMessage_id row msg E), String.eqb_refl. cbn.
    rewrite app_nil_r. apply forallb_filter_id.
    apply forallb_forall. intros old I.
    apply negb_true_iff. apply String.eqb_neq. now apply fresh.
  - intros e E. rewrite E. reflexivity.
Qed.
End Messages.

(** The row m7 with a JSON text arrives twice and is then deleted; the row
    with the text that stops short arrives. *)
Lemma change_stream_events_witness :
  List.length (Supabase.messages
    (final (call (Supabase.serve Sample.db)
                 (Supabase.onInsert (Sample.row_with (VString "[1, 2.5]")))
                 (final (call (Supabase.serve Sample.db)
                              (Supabase.onInsert (Sample.row_with (VString "[1, 2.5]")))
                              (Sample.store None [] Sample.budgets)))))) = 2
  /\ final (call (Supabase.serve Sample.db) (Supabase.onDelete "m7")
              (final (call (Supabase.serve Sample.db)
                           (Supabase.onInsert (Sample.row_with (VString "[1, 2.5]")))
                           (Sample.store None [] Sample.budgets))))
     = Sample.store None [] Sample.budgets
  /\ call (Supabase.serve Sample.db) (Supabase.onInsert Sample.malformed_row)
          (Sample.store None [] Sample.budgets)
     = mkRun [] (Sample.store None [] Sample.budgets) (Thrown SyntaxError).
Proof.
  destruct (change_stream_events (Supabase.serve Sample.db)
              (Sample.row_with (VString "[1, 2.5]"))
              (Sample.store None [] Sample.budgets)) as [Hins _].
  destruct (Hins _ eq_refl) as [_ [Htwice Hdel]].
  destruct (change_stream_events (Supabase.serve Sample.db) Sample.malformed_row
              (Sample.store None [] Sample.budgets)) as [_ Hthrow].
  split; [rewrite Htwice; reflexivity |].
  split; [apply Hdel; intros old [] |].
  apply Hthrow. reflexivity.
Defined.

(* ================================================================== *)
(** * Loading *)

Section Loading.
Context `{JsHost}.

(** The store with [isLoading] false. *)
Definition loaded (s : Supabase.Store) : Supabase.Store :=
  Supabase.mkStore (Supabase.user s) (Supabase.transactions s) (Supabase.members s)
    (Supabase.budgets s) (Supabase.messages s) (Supabase.settings s) false.

Ltac settle_fetch remote :=
  unfold call, Supabase.fetchData; cbn;
  destruct (remote _ Supabase.members_select) as [resM | eM];
  destruct (remote _ Supabase.transactions_select) as [resT | eT];
  destruct (remote _ Supabase.budgets_select) as [resB | eB];
  destruct (remote _ Supabase.messages_select) as [resMsg | eMsg];
  destruct (remote _ Supabase.settings_select) as [resS | eS]; cbn.

(** Whatever the five replies (errors, rejections, a message row that
    cannot be mapped), [fetchData] sends exactly the five selects, in the
    order members, transactions, budgets, messages, settings, returns
    normally, ends with [isLoading] false and leaves the session alone. *)
Theorem fetchData_always_settles
        (categories : list string) (year : num)
        (remote : Remote Supabase.Query) (s : Supabase.Store) :
  let r := call remote (Supabase.fetchData categories year) s in
  issued r = [existT _ _ Supabase.members_select;
              existT _ _ Supabase.transactions_select;
              existT _ _ Supabase.budgets_select;
              existT _ _ Supabase.messages_select;
              existT _ _ Supabase.settings_select]
  /\ outcome r = Returned tt
  /\ Supabase.isLoading (final r) = false
  /\ Supabase.user (final r) = Supabase.user s.
Proof.
  cbv zeta. settle_fetch remote; try (repeat split; reflexivity).
  unfold Supabase.fetched.
  destruct (Supabase.data resM), (Supabase.data resT); cbn;
    (destruct (Supabase.data resMsg) as [rows |]; cbn;
     [destruct (mapC Supabase.mapMessage rows); cbn |]);
    try (repeat split; reflexivity);
    destruct (Supabase.data resS) as [[| row rest] |]; cbn; repeat split; reflexivity.
Qed.

(** When one of the five selects rejects, nothing of the other four
    replies reaches the cache: the store is the one of before, with
    [isLoading] false. *)
Theorem fetchData_rejection_loads_nothing
        (categories : list string) (year : num)
        (remote : Remote Supabase.Query) (s : Supabase.Store) :
  (exists e, remote _ Supabase.members_select = Rejected e)
  \/ (exists e, remote _ Supabase.transactions_select = Rejected e)
  \/ (exists e, remote _ Supabase.budgets_select = Rejected e)
  \/ (exists e, remote _ Supabase.messages_select = Rejected e)
  \/ (exists e, remote _ Supabase.settings_select = Rejected e) ->
  final (call remote (Supabase.fetchData categories year) s) = loaded s.
Proof.
  intros [[e E] | [[e E] | [[e E] | [[e E] | [e E]]]]];
    revert E; settle_fetch remote; intros E; try discriminate; reflexivity.
Qed.
End Loading.

(** The remote is out of reach: the load leaves the demo store as it was. *)
Lemma fetchData_rejection_loads_nothing_witness :
  final (call (Supabase.unreachable (Failure "fetch failed"))
              (Supabase.fetchData Sample.categories (Exact.of_Z 2024))
              (Sample.store (Some Sample.member) [Sample.t1] Sample.budgets))
  = Sample.store (Some Sample.member) [Sample.t1] Sample.budgets.
Proof.
  apply (@fetchData_rejection_loads_nothing Exact.host
           Sample.categories (Exact.of_Z 2024)
           (Supabase.unreachable (Failure "fetch failed"))
           (Sample.store (Some Sample.member) [Sample.t1] Sample.budgets)).
  left. eexists. reflexivity.
Defined.

Section LoadingBudgets.
Context `{JsHost}.


(** When a message row of the load cannot be mapped, the load stops there:
    the members and the transactions of the replies are in the cache, the
    messages, the settings and the budgets are those of before, and
    [isLoading] is false. *)
Theorem fetchData_stops_at_unmappable_message
        (categories : list string) (year : num)
        (remote : Remote Supabase.Query) (s : Supabase.Store)
        (resM : Supabase.Response (list Supabase.MemberRow))
        (resT : Supabase.Response (list Supabase.TransactionRow))
        (resB : Supabase.Response (list Supabase.BudgetRow))
        (resMsg : Supabase.Response (list Supabase.MessageRow))
        (resS : Supabase.Response (list Supabase.SettingsRow))
        (rows : list Supabase.MessageRow) (e : Exn) :
  remote _ Supabase.members_select = Fulfilled resM ->
  remote _ Supabase.transactions_select = Fulfilled resT ->
  remote _ Supabase.budgets_select = Fulfilled resB ->
  remote _ Supabase.messages_select = Fulfilled resMsg ->
  remote _ Supabase.settings_select = Fulfilled resS ->
  Supabase.data resMsg = Some rows ->
  mapC Supabase.mapMessage rows = Throw e ->
  final (call remote (Supabase.fetchData categories year) s)
  = Supabase.mkStore (Supabase.user s)
      (match Supabase.data resT with
       | Some ts => map Supabase.mapTransaction ts
       | None => Supabase.transactions s
       end)
      (match Supabase.data resM with
       | Some ms => map Supabase.mapMember ms
       | None => Supabase.members s
       end)
      (Supabase.budgets s) (Supabase.messages s) (Supabase.settings s) false.
Proof.
  intros EM ET EB EMsg ES D E.
  unfold call, Supabase.fetchData. cbn. rewrite EM, ET, EB, EMsg, ES. cbn.
  unfold Supabase.fetched. rewrite D, E.
  destruct (Supabase.data resM), (Supabase.data resT); reflexivity.
Qed.
End LoadingBudgets.

(** The remote store holds the message row that is not a JSON text: the
    load takes its member and its transaction, and leaves the budgets and
    the settings of the demo store. *)
Lemma fetchData_stops_at_unmappable_message_witness :
  let s := final (call (Supabase.serve Sample.db_malformed)
                       (Supabase.fetchData Sample.categories (Exact.of_Z 2024))
                       (Sample.store None [] Sample.budgets)) in
  map tx_id (Supabase.transactions s) = ["t9"]
  /\ map m_balance (Supabase.members s) = [Exact.of_Z 5000]
  /\ Supabase.budgets s = Sample.budgets
  /\ Supabase.settings s = Sample.settings
  /\ Supabase.isLoading s = false.
Proof.
  cbv zeta.
  rewrite (@fetchData_stops_at_unmappable_message Exact.host
             Sample.categories (Exact.of_Z 2024)
             (Supabase.serve Sample.db_malformed) (Sample.store None [] Sample.budgets)
             _ _ _ _ _ [Sample.malformed_row] SyntaxError
             eq_refl eq_refl eq_refl eq_refl eq_refl eq_refl eq_refl).
  repeat split.
Defined.

(* ================================================================== *)
(** * The edges of [updateBudget] and of the insertions *)

Section Edges.
Context `{JsHost}.

Lemma mapC_untouched {A} (f : A -> Completion A) (l : list A) :
  (forall a, In a l -> f a = Normal a) -> mapC f l = Normal l.
Proof.
  induction l as [| a l IH]; intros E; cbn; [reflexivity |].
  rewrite (E a) by now left. cbn.
  rewrite IH by (intros a' I; apply E; now right). reflexivity.
Qed.

Lemma mapC_first_throw {A} (f : A -> Completion A) (l : list A) (e : Exn) :
  (forall a, In a l -> f a = Normal a \/ f a = Throw e) ->
  (exists a, In a l /\ f a = Throw e) ->
  mapC f l = Throw e.
Proof.
  induction l as [| a l IH]; intros E [x [I T]]; [destruct I |].
  cbn. destruct (E a (or_introl eq_refl)) as [N | N]; rewrite N; cbn; [| reflexivity].
  rewrite IH; [reflexivity | intros a' I'; apply E; now right |].
  destruct I as [-> | I]; [congruence |]. now exists x.
Qed.

Lemma store_eta (s : Supabase.Store) :
  Supabase.mkStore (Supabase.user s) (Supabase.transactions s) (Supabase.members s)
    (Supabase.budgets s) (Supabase.messages s) (Supabase.settings s)
    (Supabase.isLoading s) = s.
Proof. destruct s; reflexivity. Qed.

(** [updateBudget] on a placeholder identifier.  When no cached budget has
    the identifier, the insert is sent all the same and the cache stays as
    it was, whatever the reply.  When the reply is an empty array and a
    cached budget has the identifier, the insert has been sent and the
    updater throws a TypeError when React applies it.  When the reply has a
    row, every cached budget
    is either one of before under another identifier, or the mapped row:
    its category and allocated amount are those of the row, not the
    arguments, and its spent amount is 0. *)
Theorem updateBudget_placeholder_edges
        (remote : Remote Supabase.Query)
        (year amount : num) (id category : string) (s : Supabase.Store) :
  prefix "b-" id = true ->
  let q := Supabase.budgets_insert (Supabase.budgetData year id amount category) in
  let r := call remote (Supabase.updateBudget year id amount category) s in
  ((forall b, In b (Supabase.budgets s) -> b_id b <> id) ->
   issued r = [existT _ _ q] /\ final r = s)
  /\ (forall e,
        remote _ q = Fulfilled (Supabase.mkResponse (Some []) e) ->
        (exists b, In b (Supabase.budgets s) /\ b_id b = id) ->
        issued r = [existT _ _ q] /\ outcome r = UpdaterThrew TypeError)
  /\ (forall row rows e b',
        remote _ q = Fulfilled (Supabase.mkResponse (Some (row :: rows)) e) ->
        In b' (Supabase.budgets (final r)) ->
        (In b' (Supabase.budgets s) /\ b_id b' <> id)
        \/ (b' = Supabase.mapBudget row
            /\ b_category b' = Supabase.br_category row
            /\ b_allocatedAmount b' = parseFloat (Supabase.br_allocated_amount row)
            /\ b_spentAmount b' = zero)).
Proof.
  intros P. cbv zeta. unfold call, Supabase.updateBudget. rewrite P. cbn.
  split; [| split].
  - intros N. destruct (remote _ _) as [resp | e]; cbn; [| now split].
    destruct (Supabase.data resp) as [data |]; cbn; [| now split].
    unfold Supabase.setBudgets. rewrite mapC_untouched.
    + cbn. split; [reflexivity | apply store_eta].
    + intros b I. apply N in I. apply String.eqb_neq in I. now rewrite I.
  - intros e E X. rewrite E. cbn. unfold Supabase.setBudgets.
    rewrite (mapC_first_throw _ (Supabase.budgets s) TypeError).
    + cbn. now split.
    + intros b _. destruct (b_id b =? id); [now right | now left].
    + destruct X as [b [I B]]. exists b. split; [exact I |].
      apply String.eqb_eq in B. now rewrite B.
  - intros row rows e b' E. rewrite E. cbn. unfold Supabase.setBudgets.
    rewrite (mapC_Normal _
               (fun b => if b_id b =? id then Supabase.mapBudget row else b)).
    + cbn. intros I. apply in_map_iff in I. destruct I as [b [B I]].
      destruct (b_id b =? id) eqn:C.
      * right. subst b'. repeat split.
      * left. subst b'. split; [exact I | now apply String.eqb_neq].
    + intros b. destruct (b_id b =? id); reflexivity.
Qed.

(** An insertion whose reply is an empty array: the call has been sent,
    and the updater, which reads the first row of the reply, finds none and
    throws a TypeError when React applies it. *)
Theorem empty_reply_throws_in_updater
        (remote : Remote Supabase.Query) (now_rec now_sig : Z)
        (t : TransactionInput) (suffix : string) (mi : MemberInput)
        (s : Supabase.Store) (e1 e2 : option string) :
  remote _ (Supabase.transactions_insert (Supabase.newTx now_rec now_sig t s))
  = Fulfilled (Supabase.mkResponse (Some []) e1) ->
  remote _ (Supabase.members_insert (Supabase.newMember suffix mi))
  = Fulfilled (Supabase.mkResponse (Some []) e2) ->
  (issued (call remote (Supabase.addTransaction now_rec now_sig t) s)
   = [existT _ _ (Supabase.transactions_insert (Supabase.newTx now_rec now_sig t s))]
   /\ outcome (call remote (Supabase.addTransaction now_rec now_sig t) s)
      = UpdaterThrew TypeError)
  /\ (issued (call remote (Supabase.addMember suffix mi) s)
      = [existT _ _ (Supabase.members_insert (Supabase.newMember suffix mi))]
      /\ outcome (call remote (Supabase.addMember suffix mi) s)
         = UpdaterThrew TypeError).
Proof.
  intros E1 E2. unfold call, Supabase.addTransaction, Supabase.addMember. cbn.
  rewrite E1, E2. repeat split.
Qed.
End Edges.

(** The placeholder b-9 is no cached budget: the cache stays; the remote
    answers the insert for b-0 with an empty array: the updater throws. *)
Lemma updateBudget_placeholder_edges_witness :
  final (call (Supabase.serve Sample.db)
              (Supabase.updateBudget (Exact.of_Z 2024) "b-9" (Exact.of_Z 10) "Loisirs")
              (Sample.store None [] Sample.budgets))
  = Sample.store None [] Sample.budgets
  /\ outcome (call Sample.inserts_nothing
                   (Supabase.updateBudget (Exact.of_Z 2024) "b-0" (Exact.of_Z 10)
                                          "Transport")
                   (Sample.store None [] Sample.budgets))
     = UpdaterThrew TypeError.
Proof.
  split.
  - apply (updateBudget_placeholder_edges (Supabase.serve Sample.db)
             (Exact.of_Z 2024) (Exact.of_Z 10) "b-9" "Loisirs"
             (Sample.store None [] Sample.budgets) eq_refl).
    intros b [<- | [<- | []]]; discriminate.
  - apply (proj1 (proj2 (updateBudget_placeholder_edges Sample.inserts_nothing
             (Exact.of_Z 2024) (Exact.of_Z 10) "b-0" "Transport"
             (Sample.store None [] Sample.budgets) eq_refl)) None eq_refl).
    eexists. split; [left; reflexivity | reflexivity].
Defined.

(** The remote answers the insertions with an empty array. *)
Lemma empty_reply_throws_in_updater_witness :
  outcome (call Sample.inserts_nothing
                (Supabase.addTransaction 1700000000000 1700000000001 Sample.income)
                (Sample.store (Some Sample.treasurer) [Sample.t1] Sample.budgets))
  = UpdaterThrew TypeError.
Proof.
  pose proof (empty_reply_throws_in_updater Sample.inserts_nothing
                1700000000000 1700000000001 Sample.income "12345678901"
                {| mi_dossierNumber := "0003"; mi_ine := "INE000003";
                   mi_firstName := "Awa"; mi_lastName := "Diop"; mi_dob := "2000-01-01";
                   mi_sector := "INFO"; mi_level := "L1"; mi_gender := FEMALE;
                   mi_balance := Exact.of_Z 0 |}
                (Sample.store (Some Sample.treasurer) [Sample.t1] Sample.budgets)
                None None eq_refl eq_refl) as [[_ E] _].
  exact E.
Defined.

(* ================================================================== *)
(** * Budgets: allocations, the effect, and what counts as spent *)

Section Budgets.
Context `{JsHost}.

Lemma recomputed_cases (T : list Transaction) (B : list Budget) :
  recomputed T B = B \/ recomputed T B = newBudgets T B.
Proof. unfold recomputed. cbv zeta. destruct (differ _ _); [now right | now left]. Qed.

Lemma newBudgets_but_spent (T : list Transaction) (B : list Budget) :
  map (with_spentAmount zero) (newBudgets T B) = map (with_spentAmount zero) B.
Proof. unfold newBudgets. rewrite map_map. apply map_ext. intros b. reflexivity. Qed.

(** The effect writes spent amounts and nothing else: the budgets it
    leaves are the budgets of before up to their spent amounts (same number,
    same identifiers, categories, allocated amounts and years, in the same
    order), and the session, the transactions, the members, the messages and
    the settings are those of before, in both providers. *)
Theorem effect_writes_spent_only (s : Supabase.Store) (m : Mock.Store) :
  map (with_spentAmount zero) (Supabase.budgets (Supabase.effect s))
  = map (with_spentAmount zero) (Supabase.budgets s)
  /\ Supabase.effect s
     = Supabase.mkStore (Supabase.user s) (Supabase.transactions s) (Supabase.members s)
         (Supabase.budgets (Supabase.effect s)) (Supabase.messages s)
         (Supabase.settings s) (Supabase.isLoading s)
  /\ map (with_spentAmount zero) (Mock.budgets (Mock.effect m))
     = map (with_spentAmount zero) (Mock.budgets m)
  /\ Mock.effect m
     = Mock.mkStore (Mock.user m) (Mock.transactions m) (Mock.members m)
         (Mock.budgets (Mock.effect m)) (Mock.messages m) (Mock.settings m).
Proof.
  repeat split; cbn.
  - destruct (recomputed_cases (Supabase.transactions s) (Supabase.budgets s)) as [-> | ->];
      [reflexivity | apply newBudgets_but_spent].
  - destruct (recomputed_cases (Mock.transactions m) (Mock.budgets m)) as [-> | ->];
      [reflexivity | apply newBudgets_but_spent].
Qed.

(** Changing an allocation and recomputing the spent amounts do not
    disturb each other.  The in-memory [updateBudget], on any identifier,
    leaves every spent amount as it was and commutes with the
    recomputation.  So does the update branch of the other provider (an
    identifier without the placeholder prefix), whatever the remote answers:
    every spent amount stays, and recomputing after it gives the spent
    amounts that recomputing before it gives. *)
Theorem allocation_keeps_spent
        (remote : Remote Supabase.Query) (T : list Transaction)
        (year amount : num) (id category : string)
        (s : Supabase.Store) (m : Mock.Store) :
  let after := Supabase.budgets
                 (final (call remote (Supabase.updateBudget year id amount category) s)) in
  let mock_after := Mock.budgets
                      (final (call Mock.no_remote (Mock.updateBudget id amount) m)) in
  map b_spentAmount mock_after = map b_spentAmount (Mock.budgets m)
  /\ newBudgets T mock_after
     = map (fun b => if b_id b =? id then with_allocatedAmount amount b else b)
           (newBudgets T (Mock.budgets m))
  /\ (prefix "b-" id = false ->
      map b_spentAmount after = map b_spentAmount (Supabase.budgets s)
      /\ map b_spentAmount (newBudgets T after)
         = map b_spentAmount (newBudgets T (Supabase.budgets s))).
Proof.
  cbv zeta.
  assert (S1 : forall B : list Budget,
             map b_spentAmount
               (map (fun b => if b_id b =? id then with_allocatedAmount amount b else b) B)
             = map b_spentAmount B).
  { intros B. rewrite map_map. apply map_ext. intros b.
    destruct (b_id b =? id); reflexivity. }
  assert (S2 : forall B : list Budget,
             newBudgets T
               (map (fun b => if b_id b =? id then with_allocatedAmount amount b else b) B)
             = map (fun b => if b_id b =? id then with_allocatedAmount amount b else b)
                   (newBudgets T B)).
  { intros B. unfold newBudgets. rewrite !map_map. apply map_ext. intros b.
    destruct (b_id b =? id) eqn:E; cbn; rewrite E; reflexivity. }
  assert (M : Mock.budgets (final (call Mock.no_remote (Mock.updateBudget id amount) m))
              = map (fun b => if b_id b =? id then with_allocatedAmount amount b else b)
                    (Mock.budgets m)) by reflexivity.
  rewrite M.
  split; [apply S1 |]. split; [apply S2 |].
  intros P.
  assert (A : Supabase.budgets
                (final (call remote (Supabase.updateBudget year id amount category) s))
              = match remote _ (Supabase.budgets_update amount id) with
                | Fulfilled _ =>
                    map (fun b => if b_id b =? id then with_allocatedAmount amount b
                                  else b) (Supabase.budgets s)
                | Rejected _ => Supabase.budgets s
                end).
  { unfold call, Supabase.updateBudget. rewrite P. cbn.
    destruct (remote _ _); reflexivity. }
  rewrite A. split.
  - destruct (remote _ _); [apply S1 | reflexivity].
  - destruct (remote _ _); [| reflexivity]. rewrite S2. apply S1.
Qed.

Lemma spent_without (T1 T2 : list Transaction) (t : Transaction) (b : Budget) :
  TransactionType_eqb (tx_type t) EXPENSE && (tx_category t =? b_category b)
  && Status_eqb (tx_status t) APPROVED = false ->
  spent (T1 ++ t :: T2) b = spent (T1 ++ T2) b.
Proof.
  intros F. unfold spent. rewrite !filter_app. cbn. now rewrite F.
Qed.

(** Only approved expenses of a budget's category count: a transaction
    that is an income, or is not approved, or whose category is that of no
    budget, changes no budget wherever it stands among the transactions. *)
Theorem only_approved_expenses_count
        (T1 T2 : list Transaction) (t : Transaction) (B : list Budget) :
  tx_type t = INCOME
  \/ tx_status t <> APPROVED
  \/ (forall b, In b B -> b_category b <> tx_category t) ->
  newBudgets (T1 ++ t :: T2) B = newBudgets (T1 ++ T2) B.
Proof.
  intros C. unfold newBudgets. apply map_ext_in. intros b I. f_equal.
  apply spent_without.
  destruct C as [C | [C | C]].
  - now rewrite C.
  - destruct (tx_status t); try (now rewrite andb_false_r). now destruct C.
  - specialize (C b I).
    assert (E : (tx_category t =? b_category b) = false)
      by (apply String.eqb_neq; congruence).
    rewrite E. now rewrite andb_false_r.
Qed.
End Budgets.

(** The placeholder budget b-0 of the in-memory provider gets 60000 after
    the expense t2 was approved and counted: 2000 stays spent.  The
    persisted budget 7 gets 60000 while the remote refuses: the spent
    amounts do not move. *)
Lemma allocation_keeps_spent_witness :
  map b_spentAmount
      (Mock.budgets
         (final (call Mock.no_remote (Mock.updateBudget "b-0" (Exact.of_Z 60000))
                      (Mock.effect
                         (final (call Mock.no_remote (Mock.approveTransaction "t2")
                                      (Sample.mock_store None [Sample.t1; Sample.t2])))))))
  = [Exact.of_Z 2000; Exact.of_Z 0]
  /\ map b_spentAmount
       (Supabase.budgets
          (final (call (Supabase.refuse "permission denied")
                       (Supabase.updateBudget (Exact.of_Z 2024) "7" (Exact.of_Z 60000)
                                              "Transport")
                       (Sample.store None [Sample.t1] Sample.persisted_budgets))))
     = [Exact.of_Z 0; Exact.of_Z 0].
Proof.
  split.
  - rewrite (proj1 (allocation_keeps_spent (Supabase.refuse "permission denied")
                      [Sample.t1] (Exact.of_Z 2024) (Exact.of_Z 60000) "b-0" "Transport"
                      (Sample.store None [Sample.t1] Sample.persisted_budgets)
                      (Mock.effect
                         (final (call Mock.no_remote (Mock.approveTransaction "t2")
                                      (Sample.mock_store None [Sample.t1; Sample.t2])))))).
    reflexivity.
  - rewrite (proj1 (proj2 (proj2
               (allocation_keeps_spent (Supabase.refuse "permission denied")
                  [Sample.t1] (Exact.of_Z 2024) (Exact.of_Z 60000) "7" "Transport"
                  (Sample.store None [Sample.t1] Sample.persisted_budgets)
                  (Sample.mock_store None [Sample.t1]))) eq_refl)).
    reflexivity.
Defined.

(** The approved income t1, the pending expense t2 and the rejected expense
    t3 change no budget. *)
Lemma only_approved_expenses_count_witness :
  newBudgets [Sample.t1] Sample.budgets = newBudgets [] Sample.budgets
  /\ newBudgets [Sample.t1; Sample.t2] Sample.budgets
     = newBudgets [Sample.t1] Sample.budgets
  /\ newBudgets [Sample.t3; Sample.t1] Sample.budgets
     = newBudgets [Sample.t1] Sample.budgets.
Proof.
  split; [| split].
  - apply (only_approved_expenses_count [] [] Sample.t1 Sample.budgets).
    left. reflexivity.
  - apply (only_approved_expenses_count [Sample.t1] [] Sample.t2 Sample.budgets).
    right. left. discriminate.
  - apply (only_approved_expenses_count [] [Sample.t1] Sample.t3 Sample.budgets).
    right. left. discriminate.
Defined.

(* ================================================================== *)
(** * The budgets of a load, before and after the effect *)

Section LoadedBudgets.
Context `{JsHost}.


End LoadedBudgets.


(* ================================================================== *)
(** * Members, sessions and the snapshot of the author *)

Section MembersAndSessions.
Context `{JsHost}.

(** The unique identifier [addMember] makes starts with A for a male
    member and with B for a female one, so the gender can be read back from
    its first letter; the random suffix follows, one character longer in
    all.  The provider backed by the remote store sends it in the row to
    insert; the in-memory one appends the member, under that identifier,
    after the cached ones. *)
Theorem addMember_uniqueId
        (remote : Remote Supabase.Query) (suffix random_id : string) (mi : MemberInput)
        (s : Supabase.Store) (m : Mock.Store) :
  let uniqueId := Supabase.ni_unique_id (Supabase.newMember suffix mi) in
  (String.get 0 uniqueId = Some "A"%char <-> mi_gender mi = MALE)
  /\ (String.get 0 uniqueId = Some "B"%char <-> mi_gender mi = FEMALE)
  /\ (exists letter, uniqueId = String letter suffix)
  /\ String.length uniqueId = S (String.length suffix)
  /\ issued (call remote (Supabase.addMember suffix mi) s)
     = [existT _ _ (Supabase.members_insert (Supabase.newMember suffix mi))]
  /\ exists added,
       Mock.members (final (call Mock.no_remote
                                 (Mock.addMember suffix random_id mi) m))
       = Mock.members m ++ [added]
       /\ m_uniqueId added = uniqueId
       /\ m_id added = random_id
       /\ m_gender added = mi_gender mi.
Proof.
  cbv zeta. unfold Supabase.newMember, uniqueId_prefix. cbn.
  split; [| split; [| split; [| split; [| split]]]].
  - destruct (mi_gender mi); cbn; split; intros E; congruence.
  - destruct (mi_gender mi); cbn; split; intros E; congruence.
  - destruct (mi_gender mi); cbn; eexists; reflexivity.
  - destruct (mi_gender mi); cbn; reflexivity.
  - unfold call, Supabase.addMember. cbn.
    destruct (remote _ _) as [resp | e]; cbn; [| reflexivity].
    destruct (Supabase.data resp) as [[| row rows] |]; reflexivity.
  - eexists. repeat split.
Qed.

(** [logout] sends nothing and clears the session only; after a login, it
    gives back the store of before the login when no session was open then,
    whatever the remote answered to the login. *)
Theorem logout_after_login
        (remote : Remote Supabase.Query)
        (ADMIN_EMAIL ADMIN_PASS email pass : string)
        (s : Supabase.Store) (m : Mock.Store) :
  Supabase.user s = None -> Mock.user m = None ->
  call remote Supabase.logout
       (final (call remote (Supabase.login email pass) s))
  = mkRun [] s (Returned tt)
  /\ call Mock.no_remote Mock.logout
          (final (call Mock.no_remote
                    (Mock.login ADMIN_EMAIL ADMIN_PASS email pass) m))
     = mkRun [] m (Returned tt).
Proof.
  intros S M. split.
  - rewrite login_run. destruct s as [u ts ms bs msgs st l]. cbn in S. subst u.
    destruct (found _); reflexivity.
  - destruct m as [u ts ms bs msgs st]. cbn in M. subst u.
    unfold call, Mock.login, Mock.logout.
    destruct ((email =? ADMIN_EMAIL) && (pass =? ADMIN_PASS));
      [| destruct (email =? "president@asso.com");
         [| destruct (email =? "membre@asso.com")]]; reflexivity.
Qed.

(** The snapshot of the author that [addMessage] takes is the sector and
    the level of the first cached member whose identifier is the session's
    memberId; it is undefined when the session has no memberId or an empty
    one, and when no cached member has it. *)
Theorem memberInfo_lookup (u : User) (before after : list Member) (m : Member) :
  (u_memberId u = None \/ u_memberId u = Some "" ->
   memberInfo u (before ++ m :: after) = VUndefined)
  /\ (forall id,
        u_memberId u = Some id -> id <> "" ->
        (forall x, In x before -> m_id x <> id) ->
        (m_id m = id ->
         memberInfo u (before ++ m :: after)
         = VObject [("sector", VString (m_sector m)); ("level", VString (m_level m))])
        /\ (memberInfo u before = VUndefined)).
Proof.
  unfold memberInfo. split.
  - intros [-> | ->]; reflexivity.
  - intros id -> N F. rewrite (nonempty_truthy id N).
    assert (X : find (fun mem => m_id mem =? id) before = None).
    { induction before as [| x before IH]; cbn; [reflexivity |].
      assert (E : (m_id x =? id) = false)
        by (apply String.eqb_neq; apply F; now left).
      rewrite E. apply IH. intros y I. apply F. now right. }
    split; [| now rewrite X].
    intros E.
    assert (Y : find (fun mem => m_id mem =? id) (before ++ m :: after) = Some m).
    { clear X. induction before as [| x before IH]; cbn.
      - apply String.eqb_eq in E. now rewrite E.
      - assert (E' : (m_id x =? id) = false)
          by (apply String.eqb_neq; apply F; now left).
        rewrite E'. apply IH. intros y I. apply F. now right. }
    rewrite Y. reflexivity.
Qed.

(** The snapshot survives the round trip through the remote store on a host
    whose JSON.parse reads back what its JSON.stringify wrote: [addMessage]
    sends the JSON text of the snapshot, and a row that carries that text
    maps to a message with that very snapshot.  When there is no snapshot,
    the cell sent is null, and a row that carries null maps to a message
    whose memberInfo is undefined, on any host. *)
Theorem memberInfo_round_trip
        (remote : Remote Supabase.Query) (content : string)
        (s : Supabase.Store) (u : User) :
  Supabase.user s = Some u ->
  let sent cell :=
    [existT _ _ (Supabase.messages_insert
       {| Supabase.gi_user_id := u_email u; Supabase.gi_user_name := u_name u;
          Supabase.gi_user_role := u_role u;
          Supabase.gi_member_info_json := cell;
          Supabase.gi_content := content |})] in
  (forall m text,
      memberInfo u (Supabase.members s) = memberInfo_of m ->
      JSON_stringify (memberInfo_of m) = Some text -> text <> "" ->
      JSON_parse text = Some (memberInfo_of m) ->
      issued (call remote (Supabase.addMessage content) s) = sent (VString text)
      /\ forall row,
           Supabase.member_info_json row = VString text ->
           Supabase.mapMessage row = Normal (message_of row (memberInfo_of m)))
  /\ (memberInfo u (Supabase.members s) = VUndefined ->
      issued (call remote (Supabase.addMessage content) s) = sent VNull
      /\ forall row,
           Supabase.member_info_json row = VNull ->
           Supabase.mapMessage row = Normal (message_of row VUndefined)).
Proof.
  intros U. cbv zeta. unfold call, Supabase.addMessage. rewrite U. cbn. split.
  - intros m text I W N R. rewrite I. cbn. rewrite W. split.
    + destruct (remote _ _); reflexivity.
    + intros row C. unfold Supabase.mapMessage, message_of. rewrite C. cbn.
      rewrite (nonempty_truthy text N), R. reflexivity.
  - intros I. rewrite I. cbn. split.
    + destruct (remote _ _); reflexivity.
    + intros row C. unfold Supabase.mapMessage, message_of. rewrite C. reflexivity.
Qed.
End MembersAndSessions.

(** The member logs in and out again. *)
Lemma logout_after_login_witness :
  call (Supabase.serve Sample.db) Supabase.logout
       (final (call (Supabase.serve Sample.db) (Supabase.login "membre@asso.com" "jean")
                    (Sample.store None [Sample.t1] Sample.budgets)))
  = mkRun [] (Sample.store None [Sample.t1] Sample.budgets) (Returned tt).
Proof.
  apply (logout_after_login (Supabase.serve Sample.db)
           Sample.ADMIN_EMAIL Sample.ADMIN_PASS "membre@asso.com" "jean"
           (Sample.store None [Sample.t1] Sample.budgets)
           (Sample.mock_store None [Sample.t1]));
    reflexivity.
Defined.

(** Jean, linked to the member 1, posts: a row that carries the JSON text
    of his sector and level maps back to them. *)
Lemma memberInfo_round_trip_witness :
  exists text,
    JSON_stringify (memberInfo_of Sample.jean) = Some text
    /\ Supabase.mapMessage (Sample.row_with (VString text))
       = Normal (message_of (Sample.row_with (VString text))
                            (memberInfo_of Sample.jean)).
Proof.
  destruct (JSON_stringify (memberInfo_of Sample.jean)) as [text |] eqn:W;
    [| discriminate].
  exists text. split; [reflexivity |].
  injection W as <-.
  apply (proj1 (memberInfo_round_trip (Supabase.serve Sample.db) "Salut"
                  (Sample.store (Some Sample.member) [] Sample.budgets)
                  Sample.member eq_refl) Sample.jean _ eq_refl eq_refl);
    [discriminate | reflexivity | reflexivity].
Defined.

(** Jean's session is linked to the member 1, who is cached: the snapshot
    is his sector and level; with no member cached it is undefined. *)
Lemma memberInfo_lookup_witness :
  memberInfo Sample.member [Sample.jean]
  = VObject [("sector", VString "INFO"); ("level", VString "L2")]
  /\ memberInfo Sample.member [] = VUndefined.
Proof.
  destruct (proj2 (memberInfo_lookup Sample.member [] [] Sample.jean) "1"
              eq_refl) as [Hfound Hnone].
  - discriminate.
  - intros x [].
  - split; [exact (Hfound eq_refl) | exact Hnone].
Defined.
